(** * vscode-jupyter: NotebookWatcher and HoverProvider

    A shallow embedding of
    - [src/client/datascience/variablesView/notebookWatcher.ts]
    - [src/client/datascience/editor-integration/hoverProvider.ts]
    and the properties of the execution-count tracker, the active-notebook
    resolution, the restart/execute notifications and the hover provider's
    error handling and telemetry.

    The classes are written in state-passing style: a method takes the
    object's fields (and what it reads from the injected services) and
    returns the fields after the call.  Services that live outside these two
    files ([IFileSystem.arePathsSame], [Uri.toString], the providers) are
    Section variables, as the constructor receives them by injection. *)

From stdpp Require Import base option list strings gmap.
From Stdlib Require Import ZArith Ascii.

(** ** JavaScript values as far as the two classes need them *)
Module Js.

(** [ToBoolean] on a [number].  Execution orders are the kernel's integer
    execution counter, so a number is a [Z] and [0] is its falsy value. *)
Definition truthy_number (n : Z) : bool := negb (n =? 0)%Z.

(** [ToBoolean] on [T | undefined]: [undefined] is falsy. *)
Definition truthy_opt {A} (truthy : A → bool) (v : option A) : bool :=
  match v with Some a => truthy a | None => false end.

(** [ToBoolean] on [boolean | undefined]. *)
Definition truthy_bool (v : option bool) : bool := truthy_opt id v.

(** [ToBoolean] on a [string]: the empty string is falsy. *)
Definition truthy_string (s : string) : bool :=
  match s with EmptyString => false | String _ _ => true end.

End Js.

(** ** notebookWatcher.ts *)
Module NotebookWatcher.
Section Watcher.

(** [vscode.Uri] and [INotebook] are opaque to the watcher. *)
Context {Uri INotebook : Type}.

(** [Uri.toString()]. *)
Variable toString : Uri → string.
(** [this.fileSystem.arePathsSame]. *)
Variable arePathsSame : Uri → Uri → bool.

(** [interface IExecutionCountEntry]. *)
Record IExecutionCountEntry := {
  uri : Uri;
  executionCount : Z
}.

(** [enum KernelState] (notebookExtensibility). *)
Inductive KernelState := started | executed | restarted.

#[local] Instance KernelState_eq_dec : EqDecision KernelState.
Proof. solve_decision. Defined.

(** [vscode.NotebookDocument]: the watcher reads its [uri] only. *)
Record NotebookDocument := {
  document_uri : Uri
}.

(** [vscode.NotebookCellExecutionSummary]: [executionOrder?: number]. *)
Record NotebookCellExecutionSummary := {
  executionOrder : option Z
}.

(** [vscode.NotebookCell]: [notebook] and [executionSummary?]. *)
Record NotebookCell := {
  cell_notebook : NotebookDocument;
  executionSummary : option NotebookCellExecutionSummary
}.

(** [type KernelStateEventArgs]: [cell?] and [silent?] are optional. *)
Record KernelStateEventArgs := {
  resource : Uri;
  state : KernelState;
  cell : option NotebookCell;
  silent : option bool
}.

(** [enum vscode.NotebookCellExecutionState]. *)
Inductive NotebookCellExecutionState := Idle | Pending | Executing.

(** [vscode.NotebookCellExecutionStateChangeEvent]. *)
Record NotebookCellExecutionStateChangeEvent := {
  change_cell : NotebookCell;
  change_state : NotebookCellExecutionState
}.

(** [INotebookEditor]: [file] and [notebook?]. *)
Record INotebookEditor := {
  file : Uri;
  editor_notebook : option INotebook
}.

(** [IInteractiveWindow]: [notebookUri?]. *)
Record IInteractiveWindow := {
  notebookUri : option Uri
}.

(** [IKernel]: [notebook?]. *)
Record IKernel := {
  kernel_notebook : option INotebook
}.

(** What the watcher reads from its injected providers and from the
    [vscode] namespace at the moment a handler runs. *)
Record Host := {
  (** [this.notebookEditorProvider.activeEditor] *)
  activeEditor : option INotebookEditor;
  (** [window.activeTextEditor], through [.document.uri] *)
  activeTextEditor : option Uri;
  (** [this.interactiveWindowProvider.get] *)
  interactiveWindowProvider_get : Uri → option IInteractiveWindow;
  (** [workspace.notebookDocuments] *)
  notebookDocuments : list NotebookDocument;
  (** [this.kernelProvider.get] *)
  kernelProvider_get : NotebookDocument → option IKernel;
  (** [isJupyterNotebook] (notebook/helpers) *)
  isJupyterNotebook : NotebookDocument → bool
}.

(** [IActiveNotebookChangedEvent]. *)
Record IActiveNotebookChangedEvent := {
  changed_notebook : option INotebook;
  changed_executionCount : option Z
}.

(** One [fire] of one of the three emitters. *)
Inductive Fired :=
| DidChangeActiveNotebook (changeEvent : IActiveNotebookChangedEvent)
| DidExecuteActiveNotebook (executionCount : Z)
| DidRestartActiveNotebook.

(** The fields of a [NotebookWatcher]: the tracker array, and the
    notifications its emitters have fired so far, oldest first. *)
Record Watcher := {
  _executionCountTracker : list IExecutionCountEntry;
  fired : list Fired
}.

(** A freshly constructed watcher. *)
Definition create : Watcher :=
  {| _executionCountTracker := []; fired := [] |}.

Definition set_tracker (f : list IExecutionCountEntry → list IExecutionCountEntry)
    (w : Watcher) : Watcher :=
  {| _executionCountTracker := f (_executionCountTracker w); fired := fired w |}.

(** [emitter.fire(e)]. *)
Definition fire (e : Fired) (w : Watcher) : Watcher :=
  {| _executionCountTracker := _executionCountTracker w; fired := fired w ++ [e] |}.

(** *** The execution-count tracker *)

(** [getExecutionCount]: [Array.prototype.find]; the index stands for the
    identity of the entry object that [find] hands back. *)
Definition getExecutionCount (u : Uri) (tracker : list IExecutionCountEntry)
    : option (nat * IExecutionCountEntry) :=
  list_find (λ value, arePathsSame u (uri value)) tracker.

(** [this.getExecutionCount(u)?.executionCount]: the count tracked for [u]. *)
Definition executionCountOf (u : Uri) (tracker : list IExecutionCountEntry)
    : option Z :=
  (executionCount ∘ snd) <$> getExecutionCount u tracker.

(** [updateExecutionCount]: push a new entry, or assign the count of the
    entry found (the entry is mutated in place, its [uri] stays). *)
Definition updateExecutionCount (u : Uri) (newValue : Z)
    (tracker : list IExecutionCountEntry) : list IExecutionCountEntry :=
  match getExecutionCount u tracker with
  | None => tracker ++ [ {| uri := u; executionCount := newValue |} ]
  | Some (i, entry) =>
      <[ i := {| uri := uri entry; executionCount := newValue |} ]> tracker
  end.

(** [deleteExecutionCount]: [Array.prototype.filter]. *)
Definition deleteExecutionCount (u : Uri) (tracker : list IExecutionCountEntry)
    : list IExecutionCountEntry :=
  filter (λ value, ¬ arePathsSame u (uri value)) tracker.

(** *** Which notebook is active *)

(** [getActiveInteractiveWindow]. *)
Definition getActiveInteractiveWindow (host : Host) : option IInteractiveWindow :=
  match activeTextEditor host with
  | None => None
  | Some textDocumentUri => interactiveWindowProvider_get host textDocumentUri
  end.

(** [getActiveInteractiveWindowNotebook]: the strings compared with [===]
    are [string] on the left and [string | undefined] on the right. *)
Definition getActiveInteractiveWindowNotebook (host : Host) : option INotebook :=
  let interactiveWindow := getActiveInteractiveWindow host in
  match
    list_find
      (λ notebookDocument,
         Some (toString (document_uri notebookDocument))
         = toString <$> (interactiveWindow ≫= notebookUri))
      (notebookDocuments host)
  with
  | None => None
  | Some (_, notebookDocument) =>
      kernelProvider_get host notebookDocument ≫= kernel_notebook
  end.

(** [get activeNotebook]: [a || b] on [INotebook | undefined]. *)
Definition activeNotebook (host : Host) : option INotebook :=
  match activeEditor host ≫= editor_notebook with
  | Some notebook => Some notebook
  | None => getActiveInteractiveWindowNotebook host
  end.

(** [get activeNotebookExecutionCount]. *)
Definition activeNotebookExecutionCount (host : Host) (w : Watcher) : option Z :=
  let activeInteractiveWindow := getActiveInteractiveWindow host in
  let activeNotebookOrInteractiveWindow :=
    match file <$> activeEditor host with
    | Some f => Some f
    | None => activeInteractiveWindow ≫= notebookUri
    end in
  match activeNotebookOrInteractiveWindow with
  | Some u => executionCountOf u (_executionCountTracker w)
  | None => None
  end.

(** [isActiveNotebookEvent]. *)
Definition isActiveNotebookEvent (host : Host) (kernelStateEvent : KernelStateEventArgs)
    : bool :=
  if match activeEditor host with
     | Some editor => arePathsSame (file editor) (resource kernelStateEvent)
     | None => false
     end
  then true
  else
    let activeInteractiveWindow := getActiveInteractiveWindow host in
    if match activeInteractiveWindow ≫= notebookUri with
       | Some nbUri => arePathsSame nbUri (resource kernelStateEvent)
       | None => false
       end
    then true
    else false.

(** *** Event handlers *)

(** [kernelStateEvent.cell?.executionSummary?.executionOrder]. *)
Definition cell_executionOrder (kernelStateEvent : KernelStateEventArgs) : option Z :=
  (cell kernelStateEvent ≫= executionSummary) ≫= executionOrder.

(** [isNonSilentExecution]: every conjunct is tested for truthiness. *)
Definition isNonSilentExecution (kernelStateEvent : KernelStateEventArgs) : bool :=
  if bool_decide (state kernelStateEvent = executed)
     && match cell kernelStateEvent with
        | Some c =>
            Js.truthy_opt Js.truthy_number (executionSummary c ≫= executionOrder)
        | None => false
        end
     && negb (Js.truthy_bool (silent kernelStateEvent))
  then true
  else false.

(** [handleExecute]. *)
Definition handleExecute (host : Host) (kernelStateEvent : KernelStateEventArgs)
    (w : Watcher) : Watcher :=
  if isNonSilentExecution kernelStateEvent then
    let w1 :=
      match cell_executionOrder kernelStateEvent with
      | Some order =>
          set_tracker (updateExecutionCount (resource kernelStateEvent) order) w
      | None => w
      end in
    if isActiveNotebookEvent host kernelStateEvent then
      match cell_executionOrder kernelStateEvent with
      | Some order => fire (DidExecuteActiveNotebook order) w1
      | None => w1
      end
    else w1
  else w.

(** [handleRestart]. *)
Definition handleRestart (host : Host) (kernelStateEvent : KernelStateEventArgs)
    (w : Watcher) : Watcher :=
  let w1 := set_tracker (deleteExecutionCount (resource kernelStateEvent)) w in
  if isActiveNotebookEvent host kernelStateEvent
  then fire DidRestartActiveNotebook w1
  else w1.

(** [notebookEditorClosed]. *)
Definition notebookEditorClosed (editor : INotebookEditor) (w : Watcher) : Watcher :=
  set_tracker (deleteExecutionCount (file editor)) w.

(** [activeEditorChanged]. *)
Definition activeEditorChanged (editor : option INotebookEditor) (w : Watcher)
    : Watcher :=
  let changeEvent :=
    match editor with
    | Some e =>
        {| changed_notebook := editor_notebook e;
           changed_executionCount :=
             executionCountOf (file e) (_executionCountTracker w) |}
    | None => {| changed_notebook := None; changed_executionCount := None |}
    end in
  fire (DidChangeActiveNotebook changeEvent) w.

(** [kernelStateChanged]. *)
Definition kernelStateChanged (host : Host) (kernelStateEvent : KernelStateEventArgs)
    (w : Watcher) : Watcher :=
  match state kernelStateEvent with
  | restarted => handleRestart host kernelStateEvent w
  | _ => w
  end.

(** [onDidChangeNotebookCellExecutionState]. *)
Definition onDidChangeNotebookCellExecutionState (host : Host)
    (cellStateChange : NotebookCellExecutionStateChangeEvent) (w : Watcher) : Watcher :=
  if negb (isJupyterNotebook host (cell_notebook (change_cell cellStateChange)))
  then w
  else
    match change_state cellStateChange with
    | Idle =>
        handleExecute host
          {| resource := document_uri (cell_notebook (change_cell cellStateChange));
             state := executed;
             cell := Some (change_cell cellStateChange);
             silent := Some false |}
          w
    | _ => w
    end.

(** The subscription the constructor makes on [kernelProvider.onDidRestartKernel]:
    the callback receives the kernel's [notebookUri]. *)
Definition onDidRestartKernel (host : Host) (kernel_notebookUri : Uri) (w : Watcher)
    : Watcher :=
  handleRestart host
    {| resource := kernel_notebookUri; state := restarted; cell := None; silent := None |}
    w.

(** *** The watcher as a reactive system *)

(** What the host can deliver to the watcher's subscriptions. *)
Inductive Input :=
| KernelStateChange (kernelStateEvent : KernelStateEventArgs)
| ChangeActiveNotebookEditor (editor : option INotebookEditor)
| CloseNotebookEditor (editor : INotebookEditor)
| RestartKernel (kernel_notebookUri : Uri)
| ChangeNotebookCellExecutionState (cellStateChange : NotebookCellExecutionStateChangeEvent).

(** One delivery, with the host as it is when the handler runs. *)
Definition step (host : Host) (i : Input) (w : Watcher) : Watcher :=
  match i with
  | KernelStateChange e => kernelStateChanged host e w
  | ChangeActiveNotebookEditor editor => activeEditorChanged editor w
  | CloseNotebookEditor editor => notebookEditorClosed editor w
  | RestartKernel u => onDidRestartKernel host u w
  | ChangeNotebookCellExecutionState c => onDidChangeNotebookCellExecutionState host c w
  end.

(** The states a watcher can be in: [create], then any deliveries. *)
Inductive reachable : Watcher → Prop :=
| reachable_create : reachable create
| reachable_step host i w : reachable w → reachable (step host i w).

(** A run of [handleExecute] over a sequence of events, each with the host
    of its moment. *)
Definition handleExecutes (es : list (Host * KernelStateEventArgs)) (w : Watcher)
    : Watcher :=
  foldl (λ w he, handleExecute he.1 he.2 w) w es.

(** *** Notions the properties are stated with *)

(** The tracker holds at most one entry per document path. *)
Definition one_entry_per_path (tracker : list IExecutionCountEntry) : Prop :=
  ∀ i j a b,
    tracker !! i = Some a → tracker !! j = Some b →
    arePathsSame (uri a) (uri b) → i = j.

(** [u] matches the active notebook: the active editor's file, or otherwise
    the notebook URI of the active interactive window. *)
Definition matches_active_notebook (host : Host) (u : Uri) : Prop :=
  (∃ editor, activeEditor host = Some editor ∧ arePathsSame (file editor) u)
  ∨ (∃ window nbUri,
       getActiveInteractiveWindow host = Some window
       ∧ notebookUri window = Some nbUri
       ∧ arePathsSame nbUri u).

(** The last non-silent executed-cell event seen for [u] in a sequence. *)
Definition lastSeen (u : Uri) (es : list (Host * KernelStateEventArgs))
    : option KernelStateEventArgs :=
  last (filter (λ e, isNonSilentExecution e ∧ arePathsSame u (resource e)) (es.*2)).




End Watcher.
End NotebookWatcher.

(** ** hoverProvider.ts *)
Module HoverProvider.
Section Provider.

(** Exceptions, [vscode.Disposable], [vscode.Hover] and the arguments of
    [provideHover] are opaque to the provider. *)
Context {Exc Disposable Hover TextDocument Position CancellationToken : Type}.

(** How a call ends: it returns, or it throws.  For an [async] method,
    returning is the promise resolving and throwing is it rejecting. *)
Inductive Completion (A : Type) :=
| Normal (a : A)
| Throw (exc : Exc).
Arguments Normal {A} a.
Arguments Throw {A} exc.

(** [ICell]: the provider reads [file] only. *)
Record ICell := {
  file : string
}.

(** One [sendTelemetryEvent(eventName, durationMs, { isResultNull })]. *)
Inductive EventName := InteractiveFileTooltipsPerf.

Record TelemetryEvent := {
  eventName : EventName;
  durationMs : Z;
  isResultNull : bool
}.

(** The fields of a [HoverProvider] ([stopWatch] is the time of its last
    reset), and the two sinks it writes to: what [traceError] has logged
    and what [sendTelemetryEvent] has sent, oldest first. *)
Record State := {
  runFiles : gset string;
  hoverProviderRegistration : option Disposable;
  stopWatch : Z;
  traced : list Exc;
  telemetry : list TelemetryEvent
}.

(** [Identifiers.EmptyFileName] (datascience/constants). *)
Variable EmptyFileName : string.
(** [String.prototype.toLocaleLowerCase], and
    [vscode.languages.registerHoverProvider(PYTHON, this)].  Both are calls
    into the host; either may throw. *)
Variable toLocaleLowerCase : string → Completion string.
Variable registerHoverProvider : Completion Disposable.

(** Methods thread the state and may throw. *)
Definition M (A : Type) : Type := State → Completion A * State.

Definition ret {A} (a : A) : M A := λ s, (Normal a, s).

Definition bind {A B} (m : M A) (k : A → M B) : M B :=
  λ s, match m s with
       | (Normal a, s') => k a s'
       | (Throw exc, s') => (Throw exc, s')
       end.

Definition gets {A} (f : State → A) : M A := λ s, (Normal (f s), s).

Definition modify (f : State → State) : M unit := λ s, (Normal tt, f s).

(** The outcome of a call into the host. *)
Definition call {A} (c : Completion A) : M A := λ s, (c, s).

(** [try { body } catch (exc) { handler(exc) }]. *)
Definition try_catch {A} (body : M A) (handler : Exc → M A) : M A :=
  λ s, match body s with
       | (Normal a, s') => (Normal a, s')
       | (Throw exc, s') => handler exc s'
       end.

Notation "'let*' x ':=' m 'in' k" := (bind m (λ x, k))
  (at level 10, x name, m at level 100, k at level 200).
Notation "m '>>' k" := (bind m (λ _, k))
  (at level 100, k at level 200, right associativity).

(** Modelled from the spec: [traceError] (common/logger) is best-effort
    logging; it records the exception and returns. *)
Definition traceError (exc : Exc) : M unit :=
  modify (λ s, {| runFiles := runFiles s;
                  hoverProviderRegistration := hoverProviderRegistration s;
                  stopWatch := stopWatch s;
                  traced := traced s ++ [exc];
                  telemetry := telemetry s |}).

(** [sendTelemetryEvent]. *)
Definition sendTelemetryEvent (e : TelemetryEvent) (s : State) : State :=
  {| runFiles := runFiles s;
     hoverProviderRegistration := hoverProviderRegistration s;
     stopWatch := stopWatch s;
     traced := traced s;
     telemetry := telemetry s ++ [e] |}.

(** [this.runFiles.add(f)]. *)
Definition runFiles_add (f : string) : M unit :=
  modify (λ s, {| runFiles := {[ f ]} ∪ runFiles s;
                  hoverProviderRegistration := hoverProviderRegistration s;
                  stopWatch := stopWatch s;
                  traced := traced s;
                  telemetry := telemetry s |}).

(** [onKernelRestarted]: [this.runFiles.clear()]. *)
Definition onKernelRestarted : M unit :=
  modify (λ s, {| runFiles := ∅;
                  hoverProviderRegistration := hoverProviderRegistration s;
                  stopWatch := stopWatch s;
                  traced := traced s;
                  telemetry := telemetry s |}).

(** [initializeHoverProvider]. *)
Definition initializeHoverProvider : M unit :=
  let* registration := gets hoverProviderRegistration in
  match registration with
  | Some _ => ret tt
  | None =>
      let* d := call registerHoverProvider in
      modify (λ s, {| runFiles := runFiles s;
                      hoverProviderRegistration := Some d;
                      stopWatch := stopWatch s;
                      traced := traced s;
                      telemetry := telemetry s |})
  end.

(** The [try] block of [preExecute]. *)
Definition preExecute_body (cell : ICell) (silent : bool) : M unit :=
  if negb silent
     && Js.truthy_string (file cell)
     && negb (bool_decide (file cell = EmptyFileName))
  then
    let* size0 := gets (λ s, size (runFiles s)) in
    let* lower := call (toLocaleLowerCase (file cell)) in
    runFiles_add lower >>
    let* size1 := gets (λ s, size (runFiles s)) in
    if negb (bool_decide (size0 = size1))
    then initializeHoverProvider
    else ret tt
  else ret tt.

(** [preExecute]. *)
Definition preExecute (cell : ICell) (silent : bool) : M unit :=
  try_catch (preExecute_body cell silent) (λ exc, traceError exc).

(** [postExecute]: [noop()]. *)
Definition postExecute (_cell : ICell) (_silent : bool) : M unit :=
  ret tt.

(** A promise that [provideHover] builds, by what built it. *)
#[warnings="-register-all"]
Inductive Promise :=
| timeoutHandler (ms : Z)
| getVariableHover (document : TextDocument) (position : Position)
    (token : CancellationToken)
| Promise_race (ps : list Promise).

(** [vscode.ProviderResult<vscode.Hover>]:
    [Hover | undefined | null | Thenable<Hover | undefined | null>]. *)
Inductive ProviderResult :=
| PR_undefined
| PR_null
| PR_hover (h : Hover)
| PR_thenable (p : Promise).

(** [ToBoolean]: [undefined] and [null] are falsy, every object is truthy,
    a promise like any other. *)
Definition ToBoolean (v : ProviderResult) : bool :=
  match v with
  | PR_undefined | PR_null => false
  | PR_hover _ | PR_thenable _ => true
  end.

(** [provideHover]; [now_reset] and [now_elapsed] are the clock readings
    of [stopWatch.reset()] and [stopWatch.elapsedTime]. *)
Definition provideHover (now_reset now_elapsed : Z) (document : TextDocument)
    (position : Position) (token : CancellationToken) (s : State)
    : ProviderResult * State :=
  let s1 := {| runFiles := runFiles s;
               hoverProviderRegistration := hoverProviderRegistration s;
               stopWatch := now_reset;
               traced := traced s;
               telemetry := telemetry s |} in
  let result :=
    PR_thenable
      (Promise_race [timeoutHandler 300; getVariableHover document position token]) in
  let s2 :=
    sendTelemetryEvent
      {| eventName := InteractiveFileTooltipsPerf;
         durationMs := (now_elapsed - stopWatch s1)%Z;
         isResultNull := negb (negb (ToBoolean result)) |}
      s1 in
  (result, s2).

End Provider.

Arguments Normal {Exc A} a.
Arguments Throw {Exc A} exc.

(** *** The variable lookup behind [provideHover] *)
Section Lookup.

(** Exceptions, [vscode.Uri], [INotebook], the values of a variable's
    properties and the document types are opaque to the lookup. *)
Context {Exc Uri INotebook Value TextDocument Position Range : Type}.

(** [this.fs.arePathsSame]. *)
Variable arePathsSame : Uri → Uri → bool.
(** [document.uri], [document.getWordRangeAtPosition] and
    [document.getText]. *)
Variable document_uri : TextDocument → Uri.
Variable getWordRangeAtPosition : TextDocument → Position → option Range.
Variable getText : TextDocument → Range → string.
(** The string a template literal makes of a property value. *)
Variable toString : Value → string.

(** [IInteractiveWindow]: [notebook?], [owner] (a [Resource], possibly
    [undefined]) and [submitters]. *)
Record IInteractiveWindow := {
  notebook : option INotebook;
  owner : option Uri;
  submitters : list Uri
}.

(** [w.notebook && w.owner && this.fs.arePathsSame(w.owner, document.uri)]. *)
Definition ownedBy (document : TextDocument) (w : IInteractiveWindow) : bool :=
  Js.truthy_opt (λ _, true) (notebook w)
  && Js.truthy_opt (λ o, arePathsSame o (document_uri document)) (owner w).

(** [w.notebook && w.submitters.find((s) => this.fs.arePathsSame(s, document.uri))]. *)
Definition submittedBy (document : TextDocument) (w : IInteractiveWindow) : bool :=
  Js.truthy_opt (λ _, true) (notebook w)
  && Js.truthy_opt (λ _, true)
       (snd <$> list_find (λ s, arePathsSame s (document_uri document))
                  (submitters w)).

(** [getMatchingNotebooks]; [windows] is [this.interactiveProvider.windows].
    [.map((w) => w.notebook!)] follows a filter that kept only windows with
    a notebook. *)
Definition getMatchingNotebooks (windows : list IInteractiveWindow)
    (document : TextDocument) : list INotebook :=
  let result := omap notebook (filter (λ w, ownedBy document w) windows) in
  if bool_decide (length result = 0)
  then omap notebook (filter (λ w, submittedBy document w) windows)
  else result.

(** [vscode.Hover], with each [MarkdownString] by its value. *)
Record VariableHover := {
  contents : list string
}.

Definition newline : string := String (ascii_of_nat 10) EmptyString.

(** The [reduce] that builds the hover text from [Object.entries(attributes)]. *)
Definition asMarkdown (entries : list (string * Value)) : string :=
  foldl (λ accum entry,
           accum +:+ (entry.1 +:+ ": " +:+ toString entry.2 +:+ newline))
        ("```" +:+ newline) entries
  +:+ "```".

(** The callback that [getVariableHover] hands to [Cancellation.race].
    [awaited] is how [await Promise.race(...)] over the requests
    [getVariableProperties(word, n, t)] ends: the race resolves to the
    attributes object (here its [Object.entries]), or it rejects, and then
    the callback, which has no handler, rejects with it. *)
Definition getVariableHover_callback
    (awaited : list (string * INotebook) → @Completion Exc (list (string * Value)))
    (windows : list IInteractiveWindow)
    (document : TextDocument) (position : Position)
    : @Completion Exc (option VariableHover) :=
  match getWordRangeAtPosition document position with
  | Some range =>
      let word := getText document range in
      if Js.truthy_string word then
        let notebooks := getMatchingNotebooks windows document in
        if negb (bool_decide (length notebooks = 0)) then
          match awaited ((λ n, (word, n)) <$> notebooks) with
          | Normal entries =>
              if bool_decide (0 < length entries)
              then Normal (Some {| contents := [asMarkdown entries] |})
              else Normal None
          | Throw exc => Throw exc
          end
        else Normal None
      else Normal None
  | None => Normal None
  end.

End Lookup.

End HoverProvider.

(** ** Concrete hosts and events

    URIs are strings here, and two paths are the same when they differ in
    letter case only, as on a case-insensitive file system. *)
Module Examples.
Import NotebookWatcher.

Definition lower_ascii (c : ascii) : ascii :=
  let n := nat_of_ascii c in
  if (65 <=? n) && (n <=? 90) then ascii_of_nat (n + 32) else c.

Fixpoint lower (s : string) : string :=
  match s with
  | EmptyString => EmptyString
  | String c s' => String (lower_ascii c) (lower s')
  end.

Definition samePath (a b : string) : bool := bool_decide (lower a = lower b).

(** An executed cell of notebook [u] with execution order [order]. *)
Definition executedCell (u : string) (order : Z) : @KernelStateEventArgs string :=
  {| resource := u;
     state := executed;
     cell := Some {| cell_notebook := {| document_uri := u |};
                     executionSummary := Some {| executionOrder := Some order |} |};
     silent := Some false |}.

(** A restart of the kernel of notebook [u]. *)
Definition restartOf (u : string) : @KernelStateEventArgs string :=
  {| resource := u; state := restarted; cell := None; silent := None |}.

(** Notebooks are numbered. *)
Definition editorA : @INotebookEditor string nat :=
  {| file := "/nb/A.ipynb"; editor_notebook := Some 1 |}.

(** The notebook editor of [/nb/A.ipynb] is active. *)
Definition hostEditor : @Host string nat :=
  {| activeEditor := Some editorA;
     activeTextEditor := None;
     interactiveWindowProvider_get := λ _, None;
     notebookDocuments := [ {| document_uri := "/nb/A.ipynb" |} ];
     kernelProvider_get := λ _, None;
     isJupyterNotebook := λ _, true |}.

(** No notebook editor is active; the active text editor shows
    [/src/script.py], which owns the interactive window [interactive:/1]. *)
Definition hostInteractive : @Host string nat :=
  {| activeEditor := None;
     activeTextEditor := Some "/src/script.py";
     interactiveWindowProvider_get := λ u,
       if bool_decide (u = "/src/script.py")
       then Some {| notebookUri := Some "interactive:/1" |}
       else None;
     notebookDocuments :=
       [ {| document_uri := "/nb/A.ipynb" |};
         {| document_uri := "interactive:/1" |} ];
     kernelProvider_get := λ d,
       if bool_decide (document_uri d = "interactive:/1")
       then Some {| kernel_notebook := Some 7 |}
       else None;
     isJupyterNotebook := λ _, true |}.

(** The notebook editor of [/nb/A.ipynb] is active while the active text
    editor is the one that owns [interactive:/1]. *)
Definition hostBoth : @Host string nat :=
  {| activeEditor := Some editorA;
     activeTextEditor := Some "/src/script.py";
     interactiveWindowProvider_get := interactiveWindowProvider_get hostInteractive;
     notebookDocuments := notebookDocuments hostInteractive;
     kernelProvider_get := kernelProvider_get hostInteractive;
     isJupyterNotebook := λ _, true |}.

(** Neither a notebook editor nor a text editor is active. *)
Definition hostIdle : @Host string nat :=
  {| activeEditor := None;
     activeTextEditor := None;
     interactiveWindowProvider_get := λ _, None;
     notebookDocuments := [ {| document_uri := "/nb/A.ipynb" |} ];
     kernelProvider_get := λ _, None;
     isJupyterNotebook := λ _, true |}.

(** Three cells run in [/nb/A.ipynb] (once under another spelling of its
    path) and one in [/nb/B.ipynb]. *)
Definition session : list (@Host string nat * @KernelStateEventArgs string) :=
  [ (hostEditor, executedCell "/nb/A.ipynb" 1);
    (hostEditor, executedCell "/nb/B.ipynb" 1);
    (hostIdle, executedCell "/nb/a.ipynb" 2);
    (hostEditor, executedCell "/nb/B.ipynb" 0) ].

(** The tracker after [session]. *)
Definition tracked : list (@IExecutionCountEntry string) :=
  [ {| uri := "/nb/A.ipynb"; executionCount := 2 |};
    {| uri := "/nb/B.ipynb"; executionCount := 1 |} ].

(** A hover provider whose host refuses to register it. *)
Definition cellOf (f : string) : HoverProvider.ICell := {| HoverProvider.file := f |}.

Definition fresh : @HoverProvider.State string nat :=
  {| HoverProvider.runFiles := ∅;
     HoverProvider.hoverProviderRegistration := None;
     HoverProvider.stopWatch := 0;
     HoverProvider.traced := [];
     HoverProvider.telemetry := [] |}.

Definition lowered (f : string) : @HoverProvider.Completion string string :=
  HoverProvider.Normal (lower f).

Definition refused : @HoverProvider.Completion string nat :=
  HoverProvider.Throw "registerHoverProvider failed".

(** A cell of notebook [u] that moved to [Idle] with execution order
    [order]. *)
Definition idleChange (u : string) (order : Z)
    : @NotebookCellExecutionStateChangeEvent string :=
  {| change_cell :=
       {| cell_notebook := {| document_uri := u |};
          executionSummary := Some {| executionOrder := Some order |} |};
     change_state := Idle |}.

(** The watcher after three cells went [Idle]: two in [/nb/A.ipynb], the
    second under another spelling of its path, and one in [/nb/B.ipynb]. *)
Definition afterThreeCells : @Watcher string nat :=
  step samePath hostEditor
    (ChangeNotebookCellExecutionState (idleChange "/nb/a.ipynb" 2))
    (step samePath hostIdle
       (ChangeNotebookCellExecutionState (idleChange "/nb/B.ipynb" 1))
       (step samePath hostEditor
          (ChangeNotebookCellExecutionState (idleChange "/nb/A.ipynb" 1))
          create)).

(** A host that registers the hover provider as disposable [5]. *)
Definition accepted : @HoverProvider.Completion string nat :=
  HoverProvider.Normal 5.

(** A provider that has seen [/src/script.py] and is registered. *)
Definition seen : @HoverProvider.State string nat :=
  {| HoverProvider.runFiles := {[ "/src/script.py" ]};
     HoverProvider.hoverProviderRegistration := Some 5;
     HoverProvider.stopWatch := 0;
     HoverProvider.traced := [];
     HoverProvider.telemetry := [] |}.

(** Three interactive windows: one owned by [/src/script.py], one that
    [/src/script.py] and [/src/other.py] submitted to, and one without a
    notebook.  Documents are named by their URI; a range is the word it
    covers. *)
Definition windows : list (@HoverProvider.IInteractiveWindow string nat) :=
  [ {| HoverProvider.notebook := Some 7;
       HoverProvider.owner := Some "/src/Script.py";
       HoverProvider.submitters := [ "/src/Script.py" ] |};
    {| HoverProvider.notebook := Some 8;
       HoverProvider.owner := None;
       HoverProvider.submitters := [ "/src/script.py"; "/src/other.py" ] |};
    {| HoverProvider.notebook := None;
       HoverProvider.owner := Some "/src/other.py";
       HoverProvider.submitters := [] |} ].

(** The kernel's reply for the variable asked about: its type and shape. *)
Definition reply (requests : list (string * nat)) : list (string * string) :=
  match requests with
  | [] => []
  | (word, _) :: _ => [ ("type", "DataFrame"); ("shape", "(3, 2)") ]
  end.

End Examples.

(** * Properties of the notebook watcher *)
Section WatcherFacts.
Import NotebookWatcher.

Context {Uri INotebook : Type}.
Variable toString : Uri → string.
Variable arePathsSame : Uri → Uri → bool.

(** [IFileSystem.arePathsSame] compares paths: it is an equivalence. *)
Hypothesis arePathsSame_refl : ∀ a, arePathsSame a a.
Hypothesis arePathsSame_sym : ∀ a b, arePathsSame a b → arePathsSame b a.
Hypothesis arePathsSame_trans :
  ∀ a b c, arePathsSame a b → arePathsSame b c → arePathsSame a c.

Local Abbreviation Entry := (@IExecutionCountEntry Uri).
Local Abbreviation get := (getExecutionCount arePathsSame).
Local Abbreviation count := (executionCountOf arePathsSame).
Local Abbreviation update := (updateExecutionCount arePathsSame).
Local Abbreviation delete := (deleteExecutionCount arePathsSame).
Local Abbreviation inv := (one_entry_per_path arePathsSame).

Implicit Types (u v : Uri) (n : Z) (l : list Entry) (e : Entry).

Lemma update_found u n l i e :
  get u l = Some (i, e) →
  update u n l = <[ i := {| uri := uri e; executionCount := n |} ]> l.
Proof using Type. unfold updateExecutionCount. by intros ->. Qed.

Lemma update_not_found u n l :
  get u l = None →
  update u n l = l ++ [ {| uri := u; executionCount := n |} ].
Proof using Type. unfold updateExecutionCount. by intros ->. Qed.

(** After an overwrite, [find] hands back the same slot with the new count. *)
Lemma get_update_found u n l i e :
  get u l = Some (i, e) →
  get u (update u n l) = Some (i, {| uri := uri e; executionCount := n |}).
Proof using Type.
  intros Hget. rewrite (update_found _ _ _ _ _ Hget).
  unfold getExecutionCount in *.
  apply list_find_Some in Hget as (Hi & HP & Hleast).
  apply list_find_Some. split_and!.
  - apply list_lookup_insert_eq. by eapply lookup_lt_Some.
  - done.
  - intros j y Hj Hlt. rewrite list_lookup_insert_ne in Hj by lia. eauto.
Qed.

(** After a push, [find] reaches the new entry, provided a path is the same
    as itself. *)
Lemma get_update_not_found u n l :
  arePathsSame u u →
  get u l = None →
  get u (update u n l)
  = Some (length l, {| uri := u; executionCount := n |}).
Proof using Type.
  intros Hrefl Hget. rewrite (update_not_found _ _ _ Hget).
  unfold getExecutionCount in *.
  apply list_find_app_Some. right. split_and!; [lia | done |].
  rewrite Nat.sub_diag. simpl. by rewrite decide_True.
Qed.

Lemma count_update u n l : arePathsSame u u → count u (update u n l) = Some n.
Proof using Type.
  intros Hrefl. unfold executionCountOf.
  destruct (get u l) as [[i e]|] eqn:Hget.
  - by rewrite (get_update_found _ _ _ _ _ Hget).
  - by rewrite (get_update_not_found _ _ _ Hrefl Hget).
Qed.

(** Two URIs of the same path find the same entry. *)
Lemma get_same u v l : arePathsSame u v → get u l = get v l.
Proof using arePathsSame_sym arePathsSame_trans.
  intros Huv. unfold getExecutionCount. apply list_find_ext.
  intros x; split; intros Hx; eauto.
Qed.

(** A URI of another path does not see the entries of [u]. *)
Lemma other_path u v x :
  ¬ arePathsSame u v → arePathsSame u x → ¬ arePathsSame v x.
Proof using arePathsSame_sym arePathsSame_trans.
  intros Huv Hux Hvx. apply Huv. eauto.
Qed.

(** [update] touches no slot whose path is not the same as [u]. *)
Lemma update_lookup_other u n l j e :
  l !! j = Some e → ¬ arePathsSame u (uri e) → update u n l !! j = Some e.
Proof using Type.
  intros Hj Hne. destruct (get u l) as [[i x]|] eqn:Hget.
  - rewrite (update_found _ _ _ _ _ Hget).
    apply list_find_Some in Hget as (Hi & HP & _).
    rewrite list_lookup_insert_ne; [done|]. intros ->. congruence.
  - rewrite (update_not_found _ _ _ Hget). by apply lookup_app_l_Some.
Qed.

(** [find] for [v] is not affected by an update for a [u] whose entries
    [v] does not see. *)
Lemma get_update_other u v n l :
  ¬ arePathsSame v u →
  (∀ x, arePathsSame u x → ¬ arePathsSame v x) →
  get v (update u n l) = get v l.
Proof using Type.
  intros Hvu Hdisj. destruct (get u l) as [[i x]|] eqn:Hget.
  - rewrite (update_found _ _ _ _ _ Hget).
    apply list_find_Some in Hget as (Hi & HP & _).
    unfold getExecutionCount. apply option_eq. intros [j y].
    rewrite list_find_insert_Some. split.
    + intros [(?&?)|[(->&<-&_&Hy&_)|[(?&?&?&?)|(z&_&_&_&Hz&Hiz&_)]]];
        [done| |done|].
      * exfalso. by eapply Hdisj.
      * exfalso. rewrite Hi in Hiz. injection Hiz as <-. by eapply Hdisj.
    + intros Hfind. pose proof Hfind as (Hj & Hy & Hleast)%list_find_Some.
      destruct (lt_eq_lt_dec j i) as [[Hlt| ->]|Hgt].
      * by left.
      * exfalso. rewrite Hi in Hj. injection Hj as <-. by eapply Hdisj.
      * right; right; left. split_and!; [done| |done|].
        -- simpl. by apply Hdisj.
        -- intros z Hz. rewrite Hi in Hz. injection Hz as <-. by apply Hdisj.
  - rewrite (update_not_found _ _ _ Hget). unfold getExecutionCount.
    destruct (list_find (λ value, arePathsSame v (uri value)) l)
      as [[j y]|] eqn:Hv.
    + by apply list_find_app_l.
    + apply list_find_app_None. split; [done|].
      apply list_find_None. by repeat constructor.
Qed.

Lemma count_update_other u v n l :
  ¬ arePathsSame u v → count v (update u n l) = count v l.
Proof using arePathsSame_sym arePathsSame_trans.
  intros Huv. unfold executionCountOf. rewrite get_update_other; [done|..].
  - intros Hvu. eauto.
  - intros x. by apply other_path.
Qed.

(** [delete] removes every entry of [u] and keeps the others. *)
Lemma elem_of_delete u l e :
  e ∈ delete u l ↔ e ∈ l ∧ ¬ arePathsSame u (uri e).
Proof using Type.
  unfold deleteExecutionCount. rewrite list_elem_of_filter.
  split; intros [? ?]; by split.
Qed.

Lemma get_delete u l : get u (delete u l) = None.
Proof using Type.
  unfold getExecutionCount. apply list_find_None, Forall_forall.
  intros e [_ He]%elem_of_delete. by intros ?.
Qed.

(** [find] on a filtered array: entries that [find] would not stop at may
    be dropped. *)
Lemma find_filter_entry {A} (P Q : A → Prop)
    `{∀ x, Decision (P x)} `{∀ x, Decision (Q x)} (l : list A) :
  (∀ x, P x → Q x) →
  snd <$> list_find P (filter Q l) = snd <$> list_find P l.
Proof using Type.
  intros HPQ. induction l as [|x l IH]; [done|].
  destruct (decide (Q x)) as [HQ|HQ].
  - rewrite filter_cons_True by done. simpl.
    destruct (decide (P x)); [done|].
    destruct (list_find P (filter Q l)) as [[? ?]|],
             (list_find P l) as [[? ?]|]; simpl in *; congruence.
  - rewrite filter_cons_False by done. simpl.
    destruct (decide (P x)) as [HP|HP]; [by apply HPQ in HP|].
    rewrite IH. by destruct (list_find P l) as [[? ?]|].
Qed.

Lemma get_delete_other u v l :
  (∀ x, arePathsSame u x → ¬ arePathsSame v x) →
  snd <$> get v (delete u l) = snd <$> get v l.
Proof using Type.
  intros Hdisj. unfold getExecutionCount, deleteExecutionCount.
  apply find_filter_entry. intros x Hv Hu. by eapply Hdisj.
Qed.

Lemma count_delete_other u v l :
  ¬ arePathsSame u v → count v (delete u l) = count v l.
Proof using arePathsSame_sym arePathsSame_trans.
  intros Huv. unfold executionCountOf.
  pose proof (get_delete_other u v l (λ x, other_path u v x Huv)) as Hget.
  destruct (get v (delete u l)) as [[? ?]|], (get v l) as [[? ?]|];
    simpl in *; congruence.
Qed.

(** ** At most one entry per path *)

Lemma inv_nil : inv [].
Proof using Type. intros i j a b Hi. by rewrite lookup_nil in Hi. Qed.

Lemma inv_cons e l :
  inv (e :: l) ↔
  inv l ∧ ∀ y, y ∈ l →
            ¬ arePathsSame (uri e) (uri y) ∧ ¬ arePathsSame (uri y) (uri e).
Proof using Type.
  split.
  - intros Hinv. split.
    + intros i j a b Hi Hj Hab.
      by injection (Hinv (S i) (S j) a b Hi Hj Hab).
    + intros y (j & Hj)%list_elem_of_lookup. split; intros Hs.
      * by specialize (Hinv 0 (S j) e y eq_refl Hj Hs).
      * by specialize (Hinv (S j) 0 y e Hj eq_refl Hs).
  - intros [Hinv Hfresh] [|i] [|j] a b Hi Hj Hab; simpl in *; simplify_eq.
    + done.
    + destruct (Hfresh b) as [Hne _]; [by eapply list_elem_of_lookup_2|].
      by destruct Hne.
    + destruct (Hfresh a) as [_ Hne]; [by eapply list_elem_of_lookup_2|].
      by destruct Hne.
    + f_equal. eauto.
Qed.

(** The invariant looks at the [uri] fields only. *)
Lemma inv_uris l1 l2 : uri <$> l1 = uri <$> l2 → inv l1 → inv l2.
Proof using Type.
  intros Huris Hinv i j a b Hi Hj Hab.
  assert (∀ k x, l2 !! k = Some x → ∃ x', l1 !! k = Some x' ∧ uri x' = uri x)
    as Hback.
  { intros k x Hk.
    assert ((uri <$> l1) !! k = Some (uri x)) as Hk1
      by (by rewrite Huris, list_lookup_fmap, Hk).
    apply list_lookup_fmap_Some in Hk1 as (x' & ? & ?). eauto. }
  destruct (Hback _ _ Hi) as (a' & Hi' & Ha), (Hback _ _ Hj) as (b' & Hj' & Hb).
  apply (Hinv i j a' b' Hi' Hj'). by rewrite Ha, Hb.
Qed.

Lemma inv_update u n l : inv l → inv (update u n l).
Proof using arePathsSame_sym.
  intros Hinv. destruct (get u l) as [[i e]|] eqn:Hget.
  - rewrite (update_found _ _ _ _ _ Hget).
    apply list_find_Some in Hget as (Hi & _ & _).
    eapply inv_uris; [|done].
    rewrite list_fmap_insert. simpl. symmetry. apply list_insert_id.
    by rewrite list_lookup_fmap, Hi.
  - rewrite (update_not_found _ _ _ Hget).
    apply list_find_None in Hget. rewrite Forall_forall in Hget.
    intros i j a b Hi Hj Hab.
    apply lookup_app_Some in Hi as [Hi|[Hil Hi]];
      apply lookup_app_Some in Hj as [Hj|[Hjl Hj]].
    + by apply (Hinv i j a b).
    + apply list_lookup_singleton_Some in Hj as [_ <-]. simpl in Hab.
      exfalso. eapply Hget; [by eapply list_elem_of_lookup_2|]. simpl. eauto.
    + apply list_lookup_singleton_Some in Hi as [_ <-]. simpl in Hab.
      exfalso. eapply Hget; [by eapply list_elem_of_lookup_2|]. done.
    + apply list_lookup_singleton_Some in Hi as [? _].
      apply list_lookup_singleton_Some in Hj as [? _]. lia.
Qed.

Lemma inv_delete u l : inv l → inv (delete u l).
Proof using Type.
  unfold deleteExecutionCount. induction l as [|e l IH]; [done|].
  intros [Hinv Hfresh]%inv_cons.
  destruct (decide (¬ arePathsSame u (uri e))).
  - rewrite filter_cons_True by done. apply inv_cons. split; [by apply IH|].
    intros y [_ Hy]%list_elem_of_filter. by apply Hfresh.
  - rewrite filter_cons_False by done. by apply IH.
Qed.

(** ** The handlers *)

Local Abbreviation Event := (@KernelStateEventArgs Uri).
Local Abbreviation HostT := (@Host Uri INotebook).
Local Abbreviation WatcherT := (@Watcher Uri INotebook).
Local Abbreviation tracker := _executionCountTracker.
Local Abbreviation matches := (matches_active_notebook arePathsSame).
Local Abbreviation isActive := (isActiveNotebookEvent arePathsSame).

Implicit Types (host : HostT) (ev : Event) (w : WatcherT).

(** What [isNonSilentExecution] accepts: an executed cell with a defined,
    non-zero execution order, not flagged silent. *)
Lemma isNonSilentExecution_spec ev :
  isNonSilentExecution ev ↔
  state ev = executed
  ∧ (∃ n, cell_executionOrder ev = Some n ∧ n ≠ 0%Z)
  ∧ silent ev ≠ Some true.
Proof using Type.
  unfold isNonSilentExecution, cell_executionOrder.
  destruct ev as [r st [[nb [[[o|]]|]]|] [[|]|]]; simpl;
    case_bool_decide; simpl; unfold Js.truthy_number;
    try destruct (Z.eqb_spec o 0); simpl;
    (split; [try done; intros _; split_and!; eauto; done
            |try done; intros (? & (? & ? & ?) & ?); simplify_eq]).
Qed.

Lemma isNonSilentExecution_order ev :
  isNonSilentExecution ev → ∃ n, cell_executionOrder ev = Some n ∧ n ≠ 0%Z.
Proof using Type. by intros (_ & H & _)%isNonSilentExecution_spec. Qed.

Lemma isActiveNotebookEvent_spec host ev :
  isActive host ev ↔ matches host (resource ev).
Proof using Type.
  unfold isActiveNotebookEvent, matches_active_notebook.
  destruct (activeEditor host) as [editor|] eqn:Heditor.
  - destruct (arePathsSame (file editor) (resource ev)) eqn:Hfile.
    + split; [|done]. intros _. left. exists editor. by rewrite Hfile.
    + destruct (getActiveInteractiveWindow host) as [[[nbUri|]]|]; simpl.
      * destruct (arePathsSame nbUri (resource ev)) eqn:Hnb.
        -- split; [|done]. intros _. right. eexists _, nbUri. by rewrite Hnb.
        -- split; [done|]. intros [(e' & [= <-] & He)|(? & ? & [= <-] & [= <-] & He)].
           ++ by rewrite Hfile in He.
           ++ by rewrite Hnb in He.
      * split; [done|]. intros [(e' & [= <-] & He)|(? & ? & [= <-] & ? & _)].
        -- by rewrite Hfile in He.
        -- done.
      * split; [done|]. intros [(e' & [= <-] & He)|(? & ? & ? & _)].
        -- by rewrite Hfile in He.
        -- done.
  - destruct (getActiveInteractiveWindow host) as [[[nbUri|]]|]; simpl.
    + destruct (arePathsSame nbUri (resource ev)) eqn:Hnb.
      * split; [|done]. intros _. right. eexists _, nbUri. by rewrite Hnb.
      * split; [done|]. intros [(? & ? & _)|(? & ? & [= <-] & [= <-] & He)].
        -- done.
        -- by rewrite Hnb in He.
    + split; [done|]. intros [(? & ? & _)|(? & ? & [= <-] & ? & _)]; done.
    + split; [done|]. intros [(? & ? & _)|(? & ? & ? & _)]; done.
Qed.


Lemma tracker_fire (f : @Fired INotebook) w : tracker (fire f w) = tracker w.
Proof using Type. done. Qed.

Lemma tracker_handleExecute host ev w :
  tracker (handleExecute arePathsSame host ev w)
  = if isNonSilentExecution ev
    then match cell_executionOrder ev with
         | Some n => update (resource ev) n (tracker w)
         | None => tracker w
         end
    else tracker w.
Proof using Type.
  unfold handleExecute.
  destruct (isNonSilentExecution ev); [|done].
  destruct (isActive host ev), (cell_executionOrder ev); done.
Qed.

Lemma fired_handleExecute host ev w :
  fired (handleExecute arePathsSame host ev w)
  = if isNonSilentExecution ev && isActive host ev
    then match cell_executionOrder ev with
         | Some n => fired w ++ [DidExecuteActiveNotebook n]
         | None => fired w
         end
    else fired w.
Proof using Type.
  unfold handleExecute.
  destruct (isNonSilentExecution ev); [|done].
  destruct (isActive host ev), (cell_executionOrder ev); done.
Qed.

Lemma tracker_handleRestart host ev w :
  tracker (handleRestart arePathsSame host ev w)
  = delete (resource ev) (tracker w).
Proof using Type. unfold handleRestart. by destruct (isActive host ev). Qed.

Lemma fired_handleRestart host ev w :
  fired (handleRestart arePathsSame host ev w)
  = if isActive host ev then fired w ++ [DidRestartActiveNotebook] else fired w.
Proof using Type. unfold handleRestart. by destruct (isActive host ev). Qed.

(** One [handleExecute], seen from a URI [u]. *)
Lemma count_handleExecute host ev w u :
  count u (tracker (handleExecute arePathsSame host ev w))
  = if decide (isNonSilentExecution ev ∧ arePathsSame u (resource ev))
    then cell_executionOrder ev
    else count u (tracker w).
Proof using arePathsSame_refl arePathsSame_sym arePathsSame_trans.
  rewrite tracker_handleExecute.
  destruct (isNonSilentExecution ev) eqn:Hns.
  - destruct (isNonSilentExecution_order ev) as (n & Hn & _); [by rewrite Hns|].
    rewrite Hn. case_decide as Hu.
    + destruct Hu as [_ Hu]. unfold executionCountOf.
      rewrite (get_same _ _ _ Hu). by apply count_update.
    + apply count_update_other. intros Hru. apply Hu. split; [done|]. eauto.
  - case_decide as Hu; [|done]. by destruct Hu.
Qed.

Lemma inv_handleExecute host ev w :
  inv (tracker w) → inv (tracker (handleExecute arePathsSame host ev w)).
Proof using arePathsSame_sym.
  intros Hinv. rewrite tracker_handleExecute.
  destruct (isNonSilentExecution ev), (cell_executionOrder ev);
    auto using inv_update.
Qed.

Lemma inv_handleRestart host ev w :
  inv (tracker w) → inv (tracker (handleRestart arePathsSame host ev w)).
Proof using Type. intros Hinv. rewrite tracker_handleRestart. by apply inv_delete. Qed.

Lemma inv_step host (i : Input) w :
  inv (tracker w) → inv (tracker (step arePathsSame host i w)).
Proof using arePathsSame_sym.
  intros Hinv. destruct i as [ev|editor|editor|u|c]; simpl.
  - unfold kernelStateChanged. destruct (state ev); auto using inv_handleRestart.
  - done.
  - by apply inv_delete.
  - by apply inv_handleRestart.
  - unfold onDidChangeNotebookCellExecutionState.
    destruct (negb _); [done|].
    destruct (change_state c); auto using inv_handleExecute.
Qed.

Lemma inv_reachable w : reachable arePathsSame w → inv (tracker w).
Proof using arePathsSame_sym.
  induction 1 as [|host i w _ IH]; [apply inv_nil|by apply inv_step].
Qed.

(** ** Main properties of the watcher *)

(** C1.  Over any sequence of executed-cell events handled by
    [handleExecute], the count tracked for a URI is the execution order of
    the last non-silent executed cell seen for that URI (and what it was
    before when none was seen): [updateExecutionCount] overwrites the entry
    found under [arePathsSame], pushes a new one otherwise, and
    [getExecutionCount] for that URI then returns the new value. *)
Theorem tracker_mirrors_last_execution_order :
  (∀ (es : list (HostT * Event)) w u,
     count u (tracker (handleExecutes arePathsSame es w))
     = match lastSeen arePathsSame u es with
       | Some ev => cell_executionOrder ev
       | None => count u (tracker w)
       end)
  ∧ (∀ u n l i e,
       get u l = Some (i, e) →
       update u n l = <[ i := {| uri := uri e; executionCount := n |} ]> l)
  ∧ (∀ u n l,
       get u l = None →
       update u n l = l ++ [ {| uri := u; executionCount := n |} ])
  ∧ (∀ u n l, count u (update u n l) = Some n).
Proof using arePathsSame_refl arePathsSame_sym arePathsSame_trans.
  split_and!.
  - intros es w u. unfold handleExecutes, lastSeen.
    induction es as [|[host ev] es IH] using rev_ind; [done|].
    rewrite foldl_snoc, fmap_app, filter_app. simpl.
    rewrite count_handleExecute, filter_cons, filter_nil. simpl.
    case_decide.
    + by rewrite last_snoc.
    + by rewrite app_nil_r.
  - apply update_found.
  - apply update_not_found.
  - intros u n l. by apply count_update.
Qed.

(** C2.  [activeNotebook] prefers the notebook editor: when the active
    editor has a notebook, that notebook is returned; only otherwise the
    notebook of the active interactive window, found through the active
    text editor's document URI, the notebook document of that window's
    URI and its kernel; with neither, the result is [undefined]. *)
Theorem activeNotebook_prefers_editor host :
  (∀ editor notebook,
     activeEditor host = Some editor →
     editor_notebook editor = Some notebook →
     activeNotebook toString host = Some notebook)
  ∧ (activeEditor host ≫= editor_notebook = None →
     activeNotebook toString host = getActiveInteractiveWindowNotebook toString host)
  ∧ (∀ notebook,
       getActiveInteractiveWindowNotebook toString host = Some notebook ↔
       ∃ textDocumentUri window nbUri i document kernel,
         activeTextEditor host = Some textDocumentUri
         ∧ interactiveWindowProvider_get host textDocumentUri = Some window
         ∧ notebookUri window = Some nbUri
         ∧ notebookDocuments host !! i = Some document
         ∧ toString (document_uri document) = toString nbUri
         ∧ (∀ j d, notebookDocuments host !! j = Some d → j < i →
                   toString (document_uri d) ≠ toString nbUri)
         ∧ kernelProvider_get host document = Some kernel
         ∧ kernel_notebook kernel = Some notebook)
  ∧ (activeEditor host ≫= editor_notebook = None →
     getActiveInteractiveWindow host = None →
     activeNotebook toString host = None).
Proof using Type.
  split_and!.
  - intros editor notebook Heditor Hnotebook.
    unfold activeNotebook. by rewrite Heditor; simpl; rewrite Hnotebook.
  - intros Hnone. unfold activeNotebook. by rewrite Hnone.
  - intros notebook. unfold getActiveInteractiveWindowNotebook.
    destruct (list_find _ (notebookDocuments host)) as [[i document]|] eqn:Hfind.
    + apply list_find_Some in Hfind as (Hi & Heq & Hleast).
      unfold getActiveInteractiveWindow in *.
      destruct (activeTextEditor host) as [textDocumentUri|]; [|done].
      destruct (interactiveWindowProvider_get host textDocumentUri)
        as [[[nbUri|]]|] eqn:Hwindow; simpl in *; [|done..].
      injection Heq as Heq. split.
      * destruct (kernelProvider_get host document) as [kernel|] eqn:Hkernel;
          [|done]. simpl. intros Hnotebook.
        eexists textDocumentUri, _, nbUri, i, document, kernel.
        split_and!; try done.
        intros j d Hj Hlt Hd. eapply Hleast; [done..|]. by rewrite Hd.
      * intros (t & window & nb & i' & document' & kernel
                & [= <-] & Hw & Hnb & Hi' & Heq' & Hleast' & Hkernel & Hnotebook).
        rewrite Hwindow in Hw. injection Hw as <-. simpl in Hnb.
        injection Hnb as <-.
        assert (i' = i) as ->.
        { destruct (lt_eq_lt_dec i' i) as [[Hlt|]|Hgt]; [|done|].
          - exfalso. eapply Hleast; [done..|]. by rewrite Heq'.
          - exfalso. by apply (Hleast' i document Hi Hgt). }
        rewrite Hi in Hi'. injection Hi' as <-. by rewrite Hkernel.
    + split; [done|].
      intros (t & window & nb & i' & document' & kernel
              & Ht & Hw & Hnb & Hi' & Heq' & _).
      apply list_find_None in Hfind. rewrite Forall_forall in Hfind.
      exfalso. eapply Hfind; [by eapply list_elem_of_lookup_2|].
      unfold getActiveInteractiveWindow. rewrite Ht, Hw. simpl. rewrite Hnb.
      simpl. by rewrite Heq'.
  - intros Hnone Hwindow. unfold activeNotebook. rewrite Hnone.
    unfold getActiveInteractiveWindowNotebook. rewrite Hwindow. simpl.
    destruct (list_find _ (notebookDocuments host)) as [[i document]|] eqn:Hfind;
      [|done].
    by apply list_find_Some in Hfind as (_ & ? & _).
Qed.



(** C7.  The tracker is per document: [updateExecutionCount u n] and
    [deleteExecutionCount u] leave every entry whose path is not the same
    as [u] unchanged, so closing an editor or restarting a kernel for one
    document (and an update for it) never alters the count tracked for a
    document of another path. *)
Theorem tracker_is_per_document u :
  (∀ n l j e,
     l !! j = Some e → ¬ arePathsSame u (uri e) → update u n l !! j = Some e)
  ∧ (∀ n l,
       filter (λ e, ¬ arePathsSame u (uri e)) (update u n l)
       = filter (λ e, ¬ arePathsSame u (uri e)) l)
  ∧ (∀ l,
       filter (λ e, ¬ arePathsSame u (uri e)) (delete u l)
       = filter (λ e, ¬ arePathsSame u (uri e)) l)
  ∧ (∀ v, ¬ arePathsSame u v →
       (∀ n l, count v (update u n l) = count v l)
       ∧ (∀ l, count v (delete u l) = count v l)
       ∧ (∀ (editor : @INotebookEditor Uri INotebook) w,
            file editor = u →
            count v (tracker (notebookEditorClosed arePathsSame editor w))
            = count v (tracker w))
       ∧ (∀ host ev w,
            resource ev = u →
            count v (tracker (handleRestart arePathsSame host ev w))
            = count v (tracker w))).
Proof using arePathsSame_refl arePathsSame_sym arePathsSame_trans.
  split_and!.
  - intros n l j e. apply update_lookup_other.
  - intros n l. destruct (get u l) as [[i e]|] eqn:Hget.
    + rewrite (update_found _ _ _ _ _ Hget).
      apply list_find_Some in Hget as (Hi & HP & _).
      rewrite <- (take_drop_middle l i e Hi) at 2.
      rewrite insert_take_drop by (by eapply lookup_lt_Some).
      rewrite !filter_app, !filter_cons. simpl.
      by rewrite !decide_False by (by intros []).
    + rewrite (update_not_found _ _ _ Hget), filter_app, filter_cons. simpl.
      rewrite decide_False by (intros []; apply arePathsSame_refl).
      by rewrite filter_nil, app_nil_r.
  - intros l. unfold deleteExecutionCount.
    rewrite list_filter_filter. apply list_filter_iff. intros e. split.
    + by intros [? _].
    + done.
  - intros v Huv. split_and!.
    + intros n l. by apply count_update_other.
    + intros l. by apply count_delete_other.
    + intros editor w <-. by apply count_delete_other.
    + intros host ev w <-. rewrite tracker_handleRestart.
      by apply count_delete_other.
Qed.

(** C8.  Assuming [arePathsSame] is an equivalence, in every reachable
    state of the watcher the tracker holds at most one entry per document
    path: the empty tracker does, and [updateExecutionCount],
    [deleteExecutionCount], [handleRestart] and [notebookEditorClosed] each
    preserve it. *)
Theorem tracker_one_entry_per_path :
  (∀ w : WatcherT, reachable arePathsSame w → inv (tracker w))
  ∧ inv (tracker (@create Uri INotebook))
  ∧ (∀ u n l, inv l → inv (update u n l))
  ∧ (∀ u l, inv l → inv (delete u l))
  ∧ (∀ host ev w,
       inv (tracker w) → inv (tracker (handleRestart arePathsSame host ev w)))
  ∧ (∀ (editor : @INotebookEditor Uri INotebook) w,
       inv (tracker w) → inv (tracker (notebookEditorClosed arePathsSame editor w))).
Proof using arePathsSame_refl arePathsSame_sym arePathsSame_trans.
  split_and!.
  - apply inv_reachable.
  - apply inv_nil.
  - apply inv_update.
  - apply inv_delete.
  - apply inv_handleRestart.
  - intros editor w Hinv. by apply inv_delete.
Qed.

(** C9.  An execution event whose cell has execution order [0] is rejected
    by [isNonSilentExecution], which tests the order for truthiness; for
    such an event [handleExecute] neither updates the tracker nor fires
    [onDidExecuteActiveNotebook], whatever its [silent] flag and [state]. *)
Theorem execution_order_zero_is_ignored host ev w :
  cell_executionOrder ev = Some 0%Z →
  isNonSilentExecution ev = false
  ∧ handleExecute arePathsSame host ev w = w.
Proof using Type.
  intros Hzero.
  assert (isNonSilentExecution ev = false) as Hns.
  { destruct (isNonSilentExecution ev) eqn:Hns; [|done].
    destruct (isNonSilentExecution_order ev) as (n & Hn & Hnz);
      [by rewrite Hns|]. congruence. }
  split; [done|]. unfold handleExecute. by rewrite Hns.
Qed.

(** ** Further properties of the tracker and the handlers *)

Lemma count_Some u l k :
  count u l = Some k →
  ∃ e, e ∈ l ∧ executionCount e = k ∧ arePathsSame u (uri e).
Proof using Type.
  unfold executionCountOf, getExecutionCount.
  destruct (list_find _ l) as [[i e]|] eqn:Hfind; [|done].
  intros [= <-]. apply list_find_Some in Hfind as (Hi & HP & _).
  exists e. split_and!; [by eapply list_elem_of_lookup_2|done..].
Qed.

Lemma update_Forall (P : Entry → Prop) u n l :
  (∀ x, P {| uri := x; executionCount := n |}) →
  Forall P l → Forall P (update u n l).
Proof using Type.
  intros Hn Hl. destruct (get u l) as [[i e]|] eqn:Hget.
  - rewrite (update_found _ _ _ _ _ Hget). by apply Forall_insert.
  - rewrite (update_not_found _ _ _ Hget). apply Forall_app. split; [done|].
    by repeat constructor.
Qed.

Lemma delete_Forall (P : Entry → Prop) u l :
  Forall P l → Forall P (delete u l).
Proof using Type.
  rewrite !Forall_forall. intros Hl e [He _]%elem_of_delete. by apply Hl.
Qed.

Lemma delete_update u n l :
  arePathsSame u u → delete u (update u n l) = delete u l.
Proof using Type.
  intros Hrefl. unfold deleteExecutionCount.
  destruct (get u l) as [[i e]|] eqn:Hget.
  - rewrite (update_found _ _ _ _ _ Hget).
    apply list_find_Some in Hget as (Hi & HP & _).
    rewrite <- (take_drop_middle l i e Hi) at 2.
    rewrite insert_take_drop by (by eapply lookup_lt_Some).
    rewrite !filter_app, !filter_cons. simpl.
    by rewrite !decide_False by (by intros []).
  - rewrite (update_not_found _ _ _ Hget), filter_app, filter_cons. simpl.
    rewrite decide_False by (by intros []).
    by rewrite filter_nil, app_nil_r.
Qed.

Local Abbreviation nonzero := (Forall (λ e : Entry, executionCount e ≠ 0%Z)).

Lemma nonzero_handleExecute host ev w :
  nonzero (tracker w) → nonzero (tracker (handleExecute arePathsSame host ev w)).
Proof using Type.
  intros Hnz. rewrite tracker_handleExecute.
  destruct (isNonSilentExecution ev) eqn:Hns; [|done].
  destruct (isNonSilentExecution_order ev) as (n & Hn & Hn0); [by rewrite Hns|].
  rewrite Hn. by apply update_Forall.
Qed.

Lemma nonzero_step host (i : Input) w :
  nonzero (tracker w) → nonzero (tracker (step arePathsSame host i w)).
Proof using Type.
  intros Hnz. destruct i as [ev|editor|editor|u|c]; simpl.
  - unfold kernelStateChanged. destruct (state ev); try done.
    rewrite tracker_handleRestart. by apply delete_Forall.
  - done.
  - by apply delete_Forall.
  - unfold onDidRestartKernel. rewrite tracker_handleRestart.
    by apply delete_Forall.
  - unfold onDidChangeNotebookCellExecutionState.
    destruct (negb _); [done|].
    destruct (change_state c); auto using nonzero_handleExecute.
Qed.

(** X1.  No reachable watcher tracks an execution count of [0]: the tracker
    is only written with orders that [isNonSilentExecution] found truthy, so
    neither [getExecutionCount] nor [activeNotebookExecutionCount] ever
    yields [0]. *)
Theorem tracked_counts_never_zero host w u :
  reachable arePathsSame w →
  Forall (λ e, executionCount e ≠ 0%Z) (tracker w)
  ∧ count u (tracker w) ≠ Some 0%Z
  ∧ activeNotebookExecutionCount arePathsSame host w ≠ Some 0%Z.
Proof using Type.
  intros Hreach.
  assert (nonzero (tracker w)) as Hnz.
  { induction Hreach as [|h i w _ IH]; [by constructor|by apply nonzero_step]. }
  assert (∀ v, count v (tracker w) ≠ Some 0%Z) as Hcount.
  { intros v (e & He & Hzero & _)%count_Some.
    rewrite Forall_forall in Hnz. by apply (Hnz e He). }
  split_and!; [done..|].
  unfold activeNotebookExecutionCount.
  destruct (file <$> activeEditor host); [done|].
  by destruct (getActiveInteractiveWindow host ≫= notebookUri).
Qed.

(** X2.  Two updates for the same URI leave what the second alone would:
    the last write wins and no second entry appears.  An update never
    shrinks the tracker and grows it by at most one entry, by none when an
    entry of that path exists. *)
Theorem updateExecutionCount_last_write_wins u n m l :
  arePathsSame u u →
  updateExecutionCount arePathsSame u m (updateExecutionCount arePathsSame u n l)
  = updateExecutionCount arePathsSame u m l
  ∧ length l ≤ length (updateExecutionCount arePathsSame u n l) ≤ S (length l)
  ∧ (is_Some (getExecutionCount arePathsSame u l) →
     length (updateExecutionCount arePathsSame u n l) = length l).
Proof using Type.
  intros Hrefl. destruct (get u l) as [[i e]|] eqn:Hget.
  - split_and!.
    + rewrite (update_found _ _ _ _ _ (get_update_found _ n _ _ _ Hget)).
      rewrite !(update_found _ _ _ _ _ Hget). simpl.
      apply list_insert_insert_eq.
    + rewrite (update_found _ _ _ _ _ Hget), length_insert. lia.
    + rewrite (update_found _ _ _ _ _ Hget), length_insert. lia.
    + intros _. by rewrite (update_found _ _ _ _ _ Hget), length_insert.
  - split_and!.
    + rewrite (update_found _ _ _ _ _ (get_update_not_found _ n _ Hrefl Hget)).
      rewrite !(update_not_found _ _ _ Hget). simpl.
      by rewrite insert_app_r_alt, Nat.sub_diag by lia.
    + rewrite (update_not_found _ _ _ Hget), length_app. simpl. lia.
    + rewrite (update_not_found _ _ _ Hget), length_app. simpl. lia.
    + by intros [? ?].
Qed.

(** X3.  Deleting is idempotent, deletions for two URIs commute, a delete
    after an update for the same URI is the delete alone (a restart undoes
    the executions counted for its notebook), and a delete never adds an
    entry. *)
Theorem deleteExecutionCount_laws u v n l :
  arePathsSame u u →
  deleteExecutionCount arePathsSame u (deleteExecutionCount arePathsSame u l)
  = deleteExecutionCount arePathsSame u l
  ∧ deleteExecutionCount arePathsSame u (deleteExecutionCount arePathsSame v l)
    = deleteExecutionCount arePathsSame v (deleteExecutionCount arePathsSame u l)
  ∧ deleteExecutionCount arePathsSame u (updateExecutionCount arePathsSame u n l)
    = deleteExecutionCount arePathsSame u l
  ∧ executionCountOf arePathsSame u
      (deleteExecutionCount arePathsSame u (updateExecutionCount arePathsSame u n l))
    = None
  ∧ length (deleteExecutionCount arePathsSame u l) ≤ length l.
Proof using Type.
  intros Hrefl. split_and!.
  - unfold deleteExecutionCount. rewrite list_filter_filter.
    apply list_filter_iff. intros e. split; [by intros [? _]|done].
  - unfold deleteExecutionCount. rewrite !list_filter_filter.
    apply list_filter_iff. intros e. split; intros [? ?]; by split.
  - by apply delete_update.
  - unfold executionCountOf. by rewrite get_delete.
  - unfold deleteExecutionCount. apply length_filter.
Qed.

(** X4.  [activeEditorChanged] announces the count tracked for the editor's
    file: after an accepted execution event for that path it carries the
    event's execution order, after a restart for that path it carries
    none; the tracker itself is left alone. *)
Theorem activeEditorChanged_reports_tracked_count host ev
    (editor : @INotebookEditor Uri INotebook) w :
  arePathsSame (file editor) (resource ev) →
  (isNonSilentExecution ev →
   activeEditorChanged arePathsSame (Some editor)
     (handleExecute arePathsSame host ev w)
   = fire (DidChangeActiveNotebook
             {| changed_notebook := editor_notebook editor;
                changed_executionCount := cell_executionOrder ev |})
       (handleExecute arePathsSame host ev w))
  ∧ activeEditorChanged arePathsSame (Some editor)
      (handleRestart arePathsSame host ev w)
    = fire (DidChangeActiveNotebook
              {| changed_notebook := editor_notebook editor;
                 changed_executionCount := None |})
        (handleRestart arePathsSame host ev w).
Proof using arePathsSame_refl arePathsSame_sym arePathsSame_trans.
  intros Hsame. split.
  - intros Hns. unfold activeEditorChanged.
    rewrite count_handleExecute. by rewrite decide_True.
  - unfold activeEditorChanged. rewrite tracker_handleRestart.
    unfold executionCountOf.
    by rewrite (get_same _ _ _ Hsame), get_delete.
Qed.

(** X5.  [activeNotebookExecutionCount] follows the events of the document
    it looks up (the active editor's file, else the active interactive
    window's notebook URI): after an accepted execution event for that
    path it is the event's execution order, after a restart for that path
    it is [undefined]. *)
Theorem activeNotebookExecutionCount_follows_events host ev w d :
  match file <$> activeEditor host with
  | Some f => Some f
  | None => getActiveInteractiveWindow host ≫= notebookUri
  end = Some d →
  arePathsSame d (resource ev) →
  (isNonSilentExecution ev →
   activeNotebookExecutionCount arePathsSame host
     (handleExecute arePathsSame host ev w)
   = cell_executionOrder ev)
  ∧ activeNotebookExecutionCount arePathsSame host
      (handleRestart arePathsSame host ev w)
    = None.
Proof using arePathsSame_refl arePathsSame_sym arePathsSame_trans.
  intros Hd Hsame. unfold activeNotebookExecutionCount. rewrite Hd. split.
  - intros Hns. rewrite count_handleExecute. by rewrite decide_True.
  - rewrite tracker_handleRestart. unfold executionCountOf.
    by rewrite (get_same _ _ _ Hsame), get_delete.
Qed.

(** X6.  The notification and the getter can disagree: when a notebook
    editor of another path is active and the event's resource is the active
    interactive window's notebook, [handleExecute] fires
    [onDidExecuteActiveNotebook] with the event's order, while
    [activeNotebookExecutionCount] still reports the count of the editor's
    file, which the event did not change. *)
Theorem execute_announced_beside_active_editor host ev w
    (editor : @INotebookEditor Uri INotebook) :
  activeEditor host = Some editor →
  ¬ arePathsSame (file editor) (resource ev) →
  matches host (resource ev) →
  isNonSilentExecution ev →
  (∃ n, cell_executionOrder ev = Some n
        ∧ fired (handleExecute arePathsSame host ev w)
          = fired w ++ [DidExecuteActiveNotebook n])
  ∧ activeNotebookExecutionCount arePathsSame host
      (handleExecute arePathsSame host ev w)
    = activeNotebookExecutionCount arePathsSame host w.
Proof using arePathsSame_refl arePathsSame_sym arePathsSame_trans.
  intros Heditor Hne Hm%isActiveNotebookEvent_spec Hns. split.
  - destruct (isNonSilentExecution_order ev Hns) as (n & Hn & _).
    exists n. rewrite fired_handleExecute, Hn.
    by destruct (isNonSilentExecution ev), (isActive host ev).
  - unfold activeNotebookExecutionCount. rewrite Heditor. simpl.
    rewrite count_handleExecute. by rewrite decide_False by (by intros [_ ?]).
Qed.


Local Ltac no_event := exists []; split; [by rewrite app_nil_r | simpl; lia].
Local Ltac one_event := eexists [_]; split; [reflexivity | simpl; lia].

(** X8.  What one delivery can do.  It fires at most one notification and
    never retracts one.  A kernel state change other than [restarted] does
    nothing at all (an [executed] state arriving on that channel counts
    nothing).  A change of the active editor leaves the tracker alone, a
    closed editor fires nothing, restarts and closes never add or change an
    entry, and an executed cell never removes or reorders the tracked
    paths. *)
Theorem step_effects host (i : @Input Uri INotebook) w :
  let w' := step arePathsSame host i w in
  (∃ evs, fired w' = fired w ++ evs ∧ length evs ≤ 1)
  ∧ (∀ ev, i = KernelStateChange ev → state ev ≠ restarted → w' = w)
  ∧ (∀ editor, i = ChangeActiveNotebookEditor editor → tracker w' = tracker w)
  ∧ (∀ editor, i = CloseNotebookEditor editor → fired w' = fired w)
  ∧ ((∀ c, i ≠ ChangeNotebookCellExecutionState c) →
     ∀ e, e ∈ tracker w' → e ∈ tracker w)
  ∧ (∀ c, i = ChangeNotebookCellExecutionState c →
          uri <$> tracker w `prefix_of` uri <$> tracker w').
Proof using Type.
  cbv zeta. split_and!.
  - destruct i as [ev|editor|editor|u|c]; cbn [step].
    + unfold kernelStateChanged.
      destruct (state ev); try (no_event).
      rewrite fired_handleRestart.
      destruct (isActive host ev); [one_event|no_event].
    + one_event.
    + no_event.
    + unfold onDidRestartKernel. rewrite fired_handleRestart.
      destruct (isActive host _); [one_event|no_event].
    + unfold onDidChangeNotebookCellExecutionState.
      destruct (negb _); [no_event|].
      destruct (change_state c); try (no_event).
      rewrite fired_handleExecute.
      destruct (_ && _); [|no_event].
      destruct (cell_executionOrder _);
        [one_event|no_event].
  - intros ev -> Hstate. cbn [step]. unfold kernelStateChanged.
    by destruct (state ev).
  - by intros editor ->.
  - by intros editor ->.
  - intros Hi e. destruct i as [ev|editor|editor|u|c]; cbn [step].
    + unfold kernelStateChanged. destruct (state ev); try done.
      rewrite tracker_handleRestart. by intros [? _]%elem_of_delete.
    + done.
    + by intros [? _]%elem_of_delete.
    + unfold onDidRestartKernel. rewrite tracker_handleRestart.
      by intros [? _]%elem_of_delete.
    + by destruct (Hi c).
  - intros c ->. cbn [step]. unfold onDidChangeNotebookCellExecutionState.
    destruct (negb _); [done|].
    destruct (change_state c); try done.
    rewrite tracker_handleExecute.
    destruct (isNonSilentExecution _); [|done].
    destruct (cell_executionOrder _) as [n|]; [|done].
    set (u := document_uri _).
    destruct (get u (tracker w)) as [[k e]|] eqn:Hget.
    + rewrite (update_found _ _ _ _ _ Hget), list_fmap_insert. simpl.
      apply list_find_Some in Hget as (Hk & _ & _).
      rewrite list_insert_id; [done|]. by rewrite list_lookup_fmap, Hk.
    + rewrite (update_not_found _ _ _ Hget), fmap_app. by apply prefix_app_r.
Qed.

End WatcherFacts.

(** * Properties of the hover provider *)
Section HoverFacts.
Import HoverProvider.

Context {Exc Disposable Hover TextDocument Position CancellationToken : Type}.
Variable EmptyFileName : string.
Variable toLocaleLowerCase : string → @Completion Exc string.
Variable registerHoverProvider : @Completion Exc Disposable.

Local Abbreviation StateT := (@State Exc Disposable).
Local Abbreviation body :=
  (preExecute_body EmptyFileName toLocaleLowerCase registerHoverProvider).
Local Abbreviation pre :=
  (preExecute EmptyFileName toLocaleLowerCase registerHoverProvider).

(** The state after [traceError exc]. *)
Local Abbreviation logged exc s :=
  {| runFiles := runFiles s;
     hoverProviderRegistration := hoverProviderRegistration s;
     stopWatch := stopWatch s;
     traced := traced s ++ [exc];
     telemetry := telemetry s |}.

(** A [try] whose handler returns never throws. *)
Lemma try_catch_returns {A} (m : @M Exc Disposable A) handler (s : StateT) :
  (∀ exc s1, ∃ a s2, handler exc s1 = (Normal a, s2)) →
  ∃ a s', try_catch m handler s = (Normal a, s').
Proof using Type.
  intros Hhandler. unfold try_catch.
  destruct (m s) as [[a|exc] s1]; eauto.
Qed.

Lemma traceError_returns (exc : Exc) (s : StateT) :
  traceError exc s = (Normal tt, logged exc s).
Proof using Type. done. Qed.

Lemma preExecute_caught cell silent (s s1 : StateT) exc :
  body cell silent s = (Throw exc, s1) →
  pre cell silent s = (Normal tt, logged exc s1).
Proof using Type. intros Hbody. unfold preExecute, try_catch. by rewrite Hbody. Qed.

Lemma preExecute_passed cell silent (s s1 : StateT) :
  body cell silent s = (Normal tt, s1) →
  pre cell silent s = (Normal tt, s1).
Proof using Type. intros Hbody. unfold preExecute, try_catch. by rewrite Hbody. Qed.

(** ** Main properties of the hover provider *)

(** C5.  For every cell and silent flag, [preExecute] resolves, also when
    its bookkeeping (the update of the file set or the registration of the
    hover provider) throws: the exception is caught, logged by [traceError]
    and not propagated; [postExecute] is a no-op that resolves and changes
    no state. *)
Theorem preExecute_never_rejects cell silent (s : StateT) :
  (∃ s', pre cell silent s = (Normal tt, s'))
  ∧ (∀ exc s1,
       body cell silent s = (Throw exc, s1) →
       pre cell silent s = (Normal tt, logged exc s1))
  ∧ (∀ s1,
       body cell silent s = (Normal tt, s1) →
       pre cell silent s = (Normal tt, s1))
  ∧ postExecute cell silent s = (Normal tt, s).
Proof using Type.
  split_and!.
  - destruct (try_catch_returns (body cell silent) (λ exc, traceError exc) s)
      as ([] & s' & Hpre); [|by exists s'].
    intros exc s1. rewrite traceError_returns. eauto.
  - intros exc s1. apply preExecute_caught.
  - apply preExecute_passed.
  - done.
Qed.

(** C10.  Every call of [provideHover] sends one
    [InteractiveFileTooltipsPerf] telemetry event whose [isResultNull] is
    [true], whatever the hover later turns out to be: the flag is [!!result]
    of the promise that the race returns, and a promise is an object. *)
Theorem provideHover_reports_isResultNull_true
    (now_reset now_elapsed : Z) (document : TextDocument) (position : Position)
    (token : CancellationToken) (s : StateT) :
  let r := @provideHover Exc Disposable Hover _ _ _
             now_reset now_elapsed document position token s in
  r.1 = PR_thenable
          (Promise_race [timeoutHandler 300; getVariableHover document position token])
  ∧ ToBoolean r.1 = true
  ∧ telemetry r.2
    = telemetry s
      ++ [ {| eventName := InteractiveFileTooltipsPerf;
              durationMs := (now_elapsed - now_reset)%Z;
              isResultNull := true |} ].
Proof using Type. by split_and!. Qed.

(** ** Further properties of [preExecute] *)

(** [s] with [files] as its file set. *)
Local Abbreviation with_files s files :=
  {| runFiles := files;
     hoverProviderRegistration := hoverProviderRegistration s;
     stopWatch := stopWatch s;
     traced := traced s;
     telemetry := telemetry s |}.

(** [s] with [files] as its file set and [d] as its registration. *)
Local Abbreviation registered s files d :=
  {| runFiles := files;
     hoverProviderRegistration := Some d;
     stopWatch := stopWatch s;
     traced := traced s;
     telemetry := telemetry s |}.

Lemma guard_true cell :
  file cell ≠ EmptyString → file cell ≠ EmptyFileName →
  negb false && Js.truthy_string (file cell)
  && negb (bool_decide (file cell = EmptyFileName)) = true.
Proof using Type.
  intros Hfile Hempty. rewrite bool_decide_false by done.
  by destruct (file cell).
Qed.

Lemma size_add_new (f : string) (files : gset string) :
  f ∉ files → size files ≠ size ({[ f ]} ∪ files).
Proof using Type.
  intros Hnew. rewrite size_union by set_solver. rewrite size_singleton. lia.
Qed.

(** X9.  [preExecute] does nothing at all for a silent execution, for a
    cell without a file and for a cell of the placeholder file
    [Identifiers.EmptyFileName]: the state is unchanged and no host call is
    made. *)
Theorem preExecute_skips cell silent (s : StateT) :
  silent = true ∨ file cell = EmptyString ∨ file cell = EmptyFileName →
  preExecute EmptyFileName toLocaleLowerCase registerHoverProvider cell silent s
  = (Normal tt, s).
Proof using Type.
  intros Hskip. unfold preExecute, try_catch, preExecute_body.
  assert (negb silent && Js.truthy_string (file cell)
          && negb (bool_decide (file cell = EmptyFileName)) = false) as ->;
    [|done].
  destruct Hskip as [->|[Hfile|Hempty]]; [done| |].
  - rewrite Hfile. by destruct silent.
  - rewrite bool_decide_true by done. by rewrite andb_false_r.
Qed.

(** X10.  A cell of a file that is already in the file set changes nothing
    and registers nothing, whether or not a hover provider is registered:
    after a registration that failed, running further cells of the same
    file does not try again. *)
Theorem preExecute_known_file_is_noop cell (s : StateT) f :
  file cell ≠ EmptyString → file cell ≠ EmptyFileName →
  toLocaleLowerCase (file cell) = Normal f →
  f ∈ runFiles s →
  preExecute EmptyFileName toLocaleLowerCase registerHoverProvider cell false s
  = (Normal tt, s).
Proof using Type.
  intros Hfile Hempty Hlower Hknown.
  unfold preExecute, try_catch, preExecute_body.
  rewrite guard_true by done.
  unfold bind, gets, call, runFiles_add, modify. rewrite Hlower. simpl.
  rewrite (subseteq_union_1_L {[ f ]} (runFiles s))
    by (by apply singleton_subseteq_l).
  rewrite bool_decide_true by done. simpl. by destruct s.
Qed.

Lemma preExecute_new_file_registered cell (s : StateT) f d :
  file cell ≠ EmptyString → file cell ≠ EmptyFileName →
  toLocaleLowerCase (file cell) = Normal f →
  f ∉ runFiles s →
  hoverProviderRegistration s = Some d →
  pre cell false s = (Normal tt, with_files s ({[ f ]} ∪ runFiles s)).
Proof using Type.
  intros Hfile Hempty Hlower Hnew Hreg.
  unfold preExecute, try_catch, preExecute_body.
  rewrite guard_true by done.
  unfold bind, gets, call, runFiles_add, modify. rewrite Hlower. simpl.
  rewrite bool_decide_false by (by apply size_add_new). simpl.
  unfold initializeHoverProvider, bind, gets, call, modify, ret. simpl.
  by rewrite Hreg.
Qed.

(** X11.  The first cell of a new file adds the lower-cased file name to
    the file set and, if no hover provider is registered yet, registers
    one: with a registration in place the host is not called again; a
    registration that succeeds is stored; one that throws leaves the file
    recorded, nothing registered and the exception logged. *)
Theorem preExecute_new_file cell (s : StateT) f :
  file cell ≠ EmptyString → file cell ≠ EmptyFileName →
  toLocaleLowerCase (file cell) = Normal f →
  f ∉ runFiles s →
  (is_Some (hoverProviderRegistration s) →
   preExecute EmptyFileName toLocaleLowerCase registerHoverProvider cell false s
   = (Normal tt, with_files s ({[ f ]} ∪ runFiles s)))
  ∧ (∀ d, hoverProviderRegistration s = None →
          registerHoverProvider = Normal d →
          preExecute EmptyFileName toLocaleLowerCase registerHoverProvider
            cell false s
          = (Normal tt, registered s ({[ f ]} ∪ runFiles s) d))
  ∧ (∀ exc, hoverProviderRegistration s = None →
            registerHoverProvider = Throw exc →
            preExecute EmptyFileName toLocaleLowerCase registerHoverProvider
              cell false s
            = (Normal tt, logged exc (with_files s ({[ f ]} ∪ runFiles s)))).
Proof using Type.
  intros Hfile Hempty Hlower Hnew.
  unfold preExecute, try_catch, preExecute_body.
  rewrite guard_true by done.
  unfold bind, gets, call, runFiles_add, modify. rewrite Hlower. simpl.
  rewrite bool_decide_false by (by apply size_add_new). simpl.
  unfold initializeHoverProvider, bind, gets, call, modify, ret. simpl.
  split_and!.
  - intros [d Hd]. by rewrite Hd.
  - intros d -> ->. done.
  - intros exc -> ->. done.
Qed.

Local Ltac preserved :=
  split_and!;
  first [ done | by eauto | apply union_subseteq_r | by (intros; simplify_eq) ].

(** X12.  Whatever the cell and whatever the host calls do, [preExecute]
    only ever adds to the file set (at most one name), never replaces or
    drops a registration, logs at most one exception, and touches neither
    the stopwatch nor the telemetry. *)
Theorem preExecute_preserves cell silent (s : StateT) :
  let s' :=
    (preExecute EmptyFileName toLocaleLowerCase registerHoverProvider
       cell silent s).2 in
  runFiles s ⊆ runFiles s'
  ∧ (runFiles s' = runFiles s ∨ ∃ f, runFiles s' = {[ f ]} ∪ runFiles s)
  ∧ (∀ d, hoverProviderRegistration s = Some d →
          hoverProviderRegistration s' = Some d)
  ∧ (traced s' = traced s ∨ ∃ exc, traced s' = traced s ++ [exc])
  ∧ stopWatch s' = stopWatch s
  ∧ telemetry s' = telemetry s.
Proof using Type.
  cbv zeta. unfold preExecute, try_catch, preExecute_body.
  destruct (negb silent && Js.truthy_string (file cell)
            && negb (bool_decide (file cell = EmptyFileName))).
  - unfold bind, gets, call, runFiles_add, modify. simpl.
    destruct (toLocaleLowerCase (file cell)) as [f|exc]; simpl.
    + case_bool_decide; simpl.
      * preserved.
      * unfold initializeHoverProvider, bind, gets, call, modify, ret. simpl.
        destruct (hoverProviderRegistration s) as [d|] eqn:Hreg; simpl.
        -- preserved.
        -- destruct registerHoverProvider as [d|exc]; simpl; preserved.
    + preserved.
  - simpl. preserved.
Qed.

(** X13.  A kernel restart empties the file set and keeps the
    registration, so the next cell of a file seen before the restart is
    recorded anew, and an existing registration is not repeated. *)
Theorem preExecute_after_kernel_restart cell (s : StateT) f d :
  file cell ≠ EmptyString → file cell ≠ EmptyFileName →
  toLocaleLowerCase (file cell) = Normal f →
  hoverProviderRegistration s = Some d →
  runFiles (onKernelRestarted s).2 = ∅
  ∧ preExecute EmptyFileName toLocaleLowerCase registerHoverProvider cell false
      (onKernelRestarted s).2
    = (Normal tt, with_files s ({[ f ]} ∪ ∅)).
Proof using Type.
  intros Hfile Hempty Hlower Hreg. split; [done|].
  by apply (preExecute_new_file_registered cell (onKernelRestarted s).2 f d).
Qed.

End HoverFacts.

(** * Properties of the variable lookup *)
Section LookupFacts.
Import HoverProvider.

Context {Exc Uri INotebook Value TextDocument Position Range : Type}.
Variable arePathsSame : Uri → Uri → bool.
Variable document_uri : TextDocument → Uri.
Variable getWordRangeAtPosition : TextDocument → Position → option Range.
Variable getText : TextDocument → Range → string.
Variable toString : Value → string.

Local Abbreviation Window := (@IInteractiveWindow Uri INotebook).
Local Abbreviation matching := (getMatchingNotebooks arePathsSame document_uri).

(** [n] is the notebook of a window that [document] owns. *)
Local Abbreviation owned ws document n :=
  (∃ w : Window, w ∈ ws ∧ notebook w = Some n
     ∧ ∃ o, owner w = Some o ∧ arePathsSame o (document_uri document)).

(** [n] is the notebook of a window that [document] submitted code to. *)
Local Abbreviation submitted ws document n :=
  (∃ w : Window, w ∈ ws ∧ notebook w = Some n
     ∧ ∃ s, s ∈ submitters w ∧ arePathsSame s (document_uri document)).

Implicit Types (ws : list Window) (document : TextDocument) (n m : INotebook).

Lemma elem_of_owned ws document n :
  n ∈ omap notebook (filter (λ w, ownedBy arePathsSame document_uri document w) ws)
  ↔ owned ws document n.
Proof using Type.
  rewrite list_elem_of_omap. split.
  - intros (w & [Hw Hin]%list_elem_of_filter & Hn). exists w.
    split_and!; [done..|]. unfold ownedBy in Hw. rewrite Hn in Hw. simpl in Hw.
    destruct (owner w) as [o|]; [by exists o|done].
  - intros (w & Hin & Hn & o & Ho & Hsame). exists w. split; [|done].
    apply list_elem_of_filter. split; [|done].
    unfold ownedBy. by rewrite Hn, Ho.
Qed.

Lemma elem_of_submitted ws document n :
  n ∈ omap notebook
        (filter (λ w, submittedBy arePathsSame document_uri document w) ws)
  ↔ submitted ws document n.
Proof using Type.
  rewrite list_elem_of_omap. split.
  - intros (w & [Hw Hin]%list_elem_of_filter & Hn). exists w.
    split_and!; [done..|]. unfold submittedBy in Hw. rewrite Hn in Hw.
    simpl in Hw.
    destruct (list_find _ (submitters w)) as [[i s]|] eqn:Hfind; [|done].
    apply list_find_Some in Hfind as (Hi & Hs & _).
    exists s. split; [by eapply list_elem_of_lookup_2|done].
  - intros (w & Hin & Hn & s & Hs & Hsame). exists w. split; [|done].
    apply list_elem_of_filter. split; [|done].
    unfold submittedBy. rewrite Hn. simpl.
    destruct (list_find_elem_of (λ s, arePathsSame s (document_uri document))
                (submitters w) s Hs Hsame) as [[i s'] ->].
    done.
Qed.

Lemma length_zero_iff_no_elem {A} (l : list A) :
  length l = 0 ↔ ∀ x, x ∉ l.
Proof using Type.
  destruct l as [|a l]; simpl.
  - split; [|done]. intros _ x. apply not_elem_of_nil.
  - split; [done|]. intros Hno. destruct (Hno a). by left.
Qed.

(** X14.  [getMatchingNotebooks] prefers owners: if the document owns any
    interactive window that has a notebook, the result is exactly the
    notebooks of the windows it owns, and windows it merely submitted to
    are left out; only when it owns none is the result the notebooks of
    the windows it submitted to.  The result is empty exactly when the
    document neither owns nor submitted to a window with a notebook. *)
Theorem getMatchingNotebooks_prefers_owner ws document :
  let result := getMatchingNotebooks arePathsSame document_uri ws document in
  ((∃ n, owned ws document n) → ∀ m, m ∈ result ↔ owned ws document m)
  ∧ ((∀ n, ¬ owned ws document n) → ∀ m, m ∈ result ↔ submitted ws document m)
  ∧ (result = [] ↔ ∀ n, ¬ owned ws document n ∧ ¬ submitted ws document n).
Proof using Type.
  cbv zeta. unfold getMatchingNotebooks. split_and!.
  - intros [n Hn%elem_of_owned] m.
    rewrite bool_decide_false; [apply elem_of_owned|].
    intros Hlen. by apply (proj1 (length_zero_iff_no_elem _) Hlen n).
  - intros Hnone m.
    rewrite bool_decide_true; [apply elem_of_submitted|].
    apply length_zero_iff_no_elem. intros n Hn%elem_of_owned. by apply (Hnone n).
  - case_bool_decide as Hlen.
    + pose proof (proj1 (length_zero_iff_no_elem _) Hlen) as Hno. split.
      * intros Hempty n. split.
        -- intros Hn%elem_of_owned. by apply (Hno n).
        -- intros Hn%elem_of_submitted. rewrite Hempty in Hn.
           by apply not_elem_of_nil in Hn.
      * intros Hnone. apply length_zero_iff_nil, length_zero_iff_no_elem.
        intros n Hn%elem_of_submitted. by destruct (Hnone n) as [_ Hns].
    + split.
      * intros Hempty. by rewrite Hempty in Hlen.
      * intros Hnone. destruct Hlen. apply length_zero_iff_no_elem.
        intros n Hn%elem_of_owned. by destruct (Hnone n) as [Hno _].
Qed.

Lemma string_app_assoc (a b c : string) : (a +:+ b) +:+ c = a +:+ (b +:+ c).
Proof using Type.
  induction a as [|x a IH]; [done|].
  change (String x ((a +:+ b) +:+ c) = String x (a +:+ (b +:+ c))).
  by rewrite IH.
Qed.

(** One line of the hover text. *)
Local Abbreviation line entry :=
  (entry.1 +:+ ": " +:+ toString entry.2 +:+ newline).

Lemma asMarkdown_lines (entries : list (string * Value)) :
  asMarkdown toString entries
  = ("```" +:+ newline)
    +:+ foldr (λ entry rest, line entry +:+ rest) "```" entries.
Proof using Type.
  unfold asMarkdown. generalize ("```" +:+ newline) as init.
  induction entries as [|entry entries IH]; intros init; [done|].
  cbn [foldl foldr]. rewrite IH. apply string_app_assoc.
Qed.

Lemma getMatchingNotebooks_nil ws document :
  getMatchingNotebooks arePathsSame document_uri ws document = []
  ↔ ∀ n, ¬ owned ws document n ∧ ¬ submitted ws document n.
Proof using Type.
  unfold getMatchingNotebooks. case_bool_decide as Hlen.
  - pose proof (proj1 (length_zero_iff_no_elem _) Hlen) as Hno. split.
    + intros Hempty n. split.
      * intros Hn%elem_of_owned. by apply (Hno n).
      * intros Hn%elem_of_submitted. rewrite Hempty in Hn.
        by apply not_elem_of_nil in Hn.
    + intros Hnone. apply length_zero_iff_nil, length_zero_iff_no_elem.
      intros n Hn%elem_of_submitted. by destruct (Hnone n) as [_ Hns].
  - split.
    + intros Hempty. by rewrite Hempty in Hlen.
    + intros Hnone. destruct Hlen. apply length_zero_iff_no_elem.
      intros n Hn%elem_of_owned. by destruct (Hnone n) as [Hno _].
Qed.

(** X15.  The lookup behind the hover.  Without a word at the position,
    with an empty word, or for a document that neither owns nor submitted
    to an interactive window with a notebook, it resolves to [null]
    whatever the kernel would answer: no request is made.  Otherwise it
    sends one request with the word per matching notebook and ends as
    their race does: it rejects when the race rejects, resolves to [null]
    when the reply has no property, and else resolves to a hover with one
    content, a block that opens with three backquotes and a newline, has
    one [key: value] line per property in the order of the reply, and
    closes with three backquotes. *)
Theorem getVariableHover_callback_outcome
    (awaited : list (string * INotebook) → @Completion Exc (list (string * Value)))
    ws document (position : Position) :
  let outcome :=
    getVariableHover_callback arePathsSame document_uri getWordRangeAtPosition
      getText toString awaited ws document position in
  ((getWordRangeAtPosition document position = None
    ∨ (∃ range, getWordRangeAtPosition document position = Some range
                ∧ getText document range = EmptyString)
    ∨ (∀ n, ¬ owned ws document n ∧ ¬ submitted ws document n)) →
   outcome = Normal None)
  ∧ (∀ range n,
       getWordRangeAtPosition document position = Some range →
       getText document range ≠ EmptyString →
       owned ws document n ∨ submitted ws document n →
       let requests :=
         (λ m, (getText document range, m))
           <$> getMatchingNotebooks arePathsSame document_uri ws document in
       requests ≠ []
       ∧ outcome
         = match awaited requests with
           | Throw exc => Throw exc
           | Normal [] => Normal None
           | Normal (entry :: entries) =>
               Normal
                 (Some
                    {| contents :=
                         [ ("```" +:+ newline)
                           +:+ foldr (λ entry rest, line entry +:+ rest) "```"
                                 (entry :: entries) ] |})
           end).
Proof using Type.
  cbv zeta. unfold getVariableHover_callback. split.
  - intros [Hrange|[(range & Hrange & Hword)|Hnone]].
    + by rewrite Hrange.
    + by rewrite Hrange, Hword.
    + rewrite (proj2 (getMatchingNotebooks_nil ws document) Hnone). simpl.
      destruct (getWordRangeAtPosition document position) as [range|]; [|done].
      by destruct (Js.truthy_string (getText document range)).
  - intros range n Hrange Hword Hn. rewrite Hrange.
    assert (getMatchingNotebooks arePathsSame document_uri ws document ≠ [])
      as Hsome.
    { intros Hnil.
      destruct (proj1 (getMatchingNotebooks_nil ws document) Hnil n) as [Ho Hs].
      by destruct Hn. }
    split.
    { intros Hreq%fmap_nil_inv. done. }
    destruct (getText document range) as [|c word] eqn:Htext; [done|]. simpl.
    rewrite bool_decide_false by (by intros ?%length_zero_iff_nil). simpl.
    destruct (awaited _) as [[|entry entries]|exc]; [done| |done].
    rewrite bool_decide_true by (simpl; lia). by rewrite asMarkdown_lines.
Qed.

End LookupFacts.

(** * The properties at concrete hosts and events *)
Section Concrete.
Import NotebookWatcher Examples.

Lemma samePath_refl a : samePath a a.
Proof. unfold samePath. by apply bool_decide_pack. Qed.

Lemma samePath_sym a b : samePath a b → samePath b a.
Proof.
  unfold samePath. intros H%bool_decide_unpack. by apply bool_decide_pack.
Qed.

Lemma samePath_trans a b c : samePath a b → samePath b c → samePath a c.
Proof.
  unfold samePath. intros H1%bool_decide_unpack H2%bool_decide_unpack.
  apply bool_decide_pack. congruence.
Qed.

(** The watcher after [session]: the cell of order [0] left no trace, and
    the two spellings of [/nb/A.ipynb] share one entry. *)
Example session_tracker :
  _executionCountTracker (handleExecutes samePath session create) = tracked.
Proof. vm_compute. reflexivity. Qed.

(** Only the events for the active editor's notebook were announced. *)
Example session_fired :
  fired (handleExecutes samePath session create)
  = [DidExecuteActiveNotebook 1].
Proof. vm_compute. reflexivity. Qed.

Lemma tracker_mirrors_last_execution_order_witness :
  executionCountOf samePath "/nb/A.ipynb"
    (_executionCountTracker (handleExecutes samePath session create))
  = Some 2%Z.
Proof.
  rewrite (proj1 (tracker_mirrors_last_execution_order samePath
                    samePath_refl samePath_sym samePath_trans)).
  reflexivity.
Defined.

Example activeNotebook_interactive : activeNotebook id hostInteractive = Some 7.
Proof. reflexivity. Qed.

Example activeNotebook_idle : activeNotebook id hostIdle = None.
Proof. reflexivity. Qed.

Lemma activeNotebook_prefers_editor_witness :
  activeNotebook id hostEditor = Some 1.
Proof.
  apply (proj1 (activeNotebook_prefers_editor id hostEditor) editorA 1);
    reflexivity.
Defined.



(** The interactive window is consulted also when a notebook editor is
    active and its file is another one. *)
Example handleRestart_interactive_beside_editor :
  fired (handleRestart samePath hostBoth (restartOf "interactive:/1") create)
  = [DidRestartActiveNotebook]
  ∧ activeNotebook id hostBoth = Some 1.
Proof. split; vm_compute; reflexivity. Qed.

Example handleRestart_tracker :
  _executionCountTracker
    (handleRestart samePath hostEditor (restartOf "/nb/a.ipynb")
       {| _executionCountTracker := tracked; fired := [] |})
  = [ {| uri := "/nb/B.ipynb"; executionCount := 1 |} ].
Proof. vm_compute. reflexivity. Qed.



Lemma tracker_is_per_document_witness :
  executionCountOf samePath "/nb/B.ipynb"
    (deleteExecutionCount samePath "/nb/A.ipynb" tracked)
  = executionCountOf samePath "/nb/B.ipynb" tracked.
Proof.
  apply (tracker_is_per_document (INotebook := nat) samePath
           samePath_refl samePath_sym samePath_trans
           "/nb/A.ipynb").
  vm_compute. exact (λ x, x).
Defined.

(** Three cells have run, two of them in [/nb/A.ipynb] under two
    spellings of its path: the tracker holds one entry per path. *)
Example afterThreeCells_tracker :
  _executionCountTracker afterThreeCells = tracked.
Proof. vm_compute. reflexivity. Qed.

Lemma tracker_one_entry_per_path_witness :
  one_entry_per_path samePath (_executionCountTracker afterThreeCells).
Proof.
  apply (proj1 (tracker_one_entry_per_path samePath
                  samePath_refl samePath_sym samePath_trans)).
  unfold afterThreeCells. repeat apply reachable_step. apply reachable_create.
Defined.

Lemma execution_order_zero_is_ignored_witness :
  isNonSilentExecution (executedCell "/nb/B.ipynb" 0) = false
  ∧ handleExecute samePath hostEditor (executedCell "/nb/B.ipynb" 0)
      {| _executionCountTracker := tracked; fired := [] |}
    = {| _executionCountTracker := tracked; fired := [] |}.
Proof.
  apply (execution_order_zero_is_ignored samePath hostEditor
           (executedCell "/nb/B.ipynb" 0)).
  reflexivity.
Defined.

(** The host refuses the registration: the file is recorded, the exception
    is logged, and [preExecute] still resolves. *)
Lemma preExecute_never_rejects_witness :
  HoverProvider.preExecute "empty" lowered refused (cellOf "/src/Script.py") false
    fresh
  = (HoverProvider.Normal tt,
     {| HoverProvider.runFiles := {[ "/src/script.py" ]} ∪ ∅;
        HoverProvider.hoverProviderRegistration := None;
        HoverProvider.stopWatch := 0;
        HoverProvider.traced := ["registerHoverProvider failed"];
        HoverProvider.telemetry := [] |}).
Proof.
  exact (proj1 (proj2 (preExecute_never_rejects "empty" lowered refused
                         (cellOf "/src/Script.py") false fresh))
           "registerHoverProvider failed"
           {| HoverProvider.runFiles := {[ "/src/script.py" ]} ∪ ∅;
              HoverProvider.hoverProviderRegistration := None;
              HoverProvider.stopWatch := 0;
              HoverProvider.traced := [];
              HoverProvider.telemetry := [] |}
           eq_refl).
Defined.

(** A second cell of the same file changes nothing and registers nothing. *)
Example preExecute_known_file :
  let s :=
    {| HoverProvider.runFiles := {[ "/src/script.py" ]} ∪ ∅;
       HoverProvider.hoverProviderRegistration := None;
       HoverProvider.stopWatch := 0;
       HoverProvider.traced := @nil string;
       HoverProvider.telemetry := [] |} in
  (HoverProvider.preExecute "empty" lowered refused (cellOf "/src/SCRIPT.py") false s).1
  = HoverProvider.Normal tt
  ∧ HoverProvider.traced
      (HoverProvider.preExecute "empty" lowered refused (cellOf "/src/SCRIPT.py")
         false s).2
    = [].
Proof. split; vm_compute; reflexivity. Qed.

Example provideHover_telemetry :
  HoverProvider.telemetry
    (HoverProvider.provideHover (Hover := unit) 1000 1002 "doc" (3, 4) tt fresh).2
  = [ {| HoverProvider.eventName := HoverProvider.InteractiveFileTooltipsPerf;
         HoverProvider.durationMs := 2;
         HoverProvider.isResultNull := true |} ].
Proof. reflexivity. Qed.

(** ** Further properties at concrete inputs *)

Lemma tracked_counts_never_zero_witness :
  Forall (λ e, executionCount e ≠ 0%Z)
    (_executionCountTracker
       (step samePath hostEditor
          (ChangeNotebookCellExecutionState (idleChange "/nb/A.ipynb" 3)) create))
  ∧ executionCountOf samePath "/nb/a.ipynb"
      (_executionCountTracker
         (step samePath hostEditor
            (ChangeNotebookCellExecutionState (idleChange "/nb/A.ipynb" 3)) create))
    ≠ Some 0%Z
  ∧ activeNotebookExecutionCount samePath hostEditor
      (step samePath hostEditor
         (ChangeNotebookCellExecutionState (idleChange "/nb/A.ipynb" 3)) create)
    ≠ Some 0%Z.
Proof.
  apply (tracked_counts_never_zero samePath hostEditor).
  apply reachable_step, reachable_create.
Defined.

Lemma updateExecutionCount_last_write_wins_witness :
  updateExecutionCount samePath "/nb/a.ipynb" 6
    (updateExecutionCount samePath "/nb/a.ipynb" 5 tracked)
  = updateExecutionCount samePath "/nb/a.ipynb" 6 tracked
  ∧ length tracked
    ≤ length (updateExecutionCount samePath "/nb/a.ipynb" 5 tracked)
    ≤ S (length tracked)
  ∧ (is_Some (getExecutionCount samePath "/nb/a.ipynb" tracked) →
     length (updateExecutionCount samePath "/nb/a.ipynb" 5 tracked)
     = length tracked).
Proof.
  apply (updateExecutionCount_last_write_wins samePath "/nb/a.ipynb" 5 6 tracked).
  apply samePath_refl.
Defined.

Lemma deleteExecutionCount_laws_witness :
  deleteExecutionCount samePath "/nb/a.ipynb"
    (updateExecutionCount samePath "/nb/a.ipynb" 9 tracked)
  = deleteExecutionCount samePath "/nb/a.ipynb" tracked.
Proof.
  apply (deleteExecutionCount_laws samePath "/nb/a.ipynb" "/nb/B.ipynb" 9 tracked).
  apply samePath_refl.
Defined.

Lemma activeEditorChanged_reports_tracked_count_witness :
  activeEditorChanged samePath (Some editorA)
    (handleRestart samePath hostEditor (restartOf "/nb/a.ipynb")
       {| _executionCountTracker := tracked; fired := [] |})
  = fire (DidChangeActiveNotebook
            {| changed_notebook := Some 1; changed_executionCount := None |})
      (handleRestart samePath hostEditor (restartOf "/nb/a.ipynb")
         {| _executionCountTracker := tracked; fired := [] |}).
Proof.
  apply (activeEditorChanged_reports_tracked_count samePath
           samePath_refl samePath_sym samePath_trans
           hostEditor (restartOf "/nb/a.ipynb") editorA).
  vm_compute. exact I.
Defined.

Lemma activeNotebookExecutionCount_follows_events_witness :
  activeNotebookExecutionCount samePath hostInteractive
    (handleExecute samePath hostInteractive (executedCell "interactive:/1" 4)
       create)
  = Some 4%Z.
Proof.
  apply (activeNotebookExecutionCount_follows_events samePath
           samePath_refl samePath_sym samePath_trans
           hostInteractive (executedCell "interactive:/1" 4) create
           "interactive:/1").
  - reflexivity.
  - vm_compute. exact I.
  - vm_compute. exact I.
Defined.

Lemma execute_announced_beside_active_editor_witness :
  activeNotebookExecutionCount samePath hostBoth
    (handleExecute samePath hostBoth (executedCell "interactive:/1" 4)
       {| _executionCountTracker := tracked; fired := [] |})
  = activeNotebookExecutionCount samePath hostBoth
      {| _executionCountTracker := tracked; fired := [] |}.
Proof.
  apply (execute_announced_beside_active_editor samePath
           samePath_refl samePath_sym samePath_trans
           hostBoth (executedCell "interactive:/1" 4)
           {| _executionCountTracker := tracked; fired := [] |} editorA).
  - reflexivity.
  - vm_compute. exact (λ x, x).
  - right. exists {| notebookUri := Some "interactive:/1" |}, "interactive:/1".
    split_and!; [reflexivity | reflexivity | vm_compute; exact I].
  - vm_compute. exact I.
Defined.

(** The count announced there is [4], while the getter answers [2]. *)
Example execute_announced_beside_active_editor_values :
  fired (handleExecute samePath hostBoth (executedCell "interactive:/1" 4)
           {| _executionCountTracker := tracked; fired := [] |})
  = [DidExecuteActiveNotebook 4]
  ∧ activeNotebookExecutionCount samePath hostBoth
      (handleExecute samePath hostBoth (executedCell "interactive:/1" 4)
         {| _executionCountTracker := tracked; fired := [] |})
    = Some 2%Z.
Proof. split; vm_compute; reflexivity. Qed.


Lemma preExecute_skips_witness :
  HoverProvider.preExecute "empty" lowered refused (cellOf "empty") false fresh
  = (HoverProvider.Normal tt, fresh).
Proof.
  apply (preExecute_skips "empty" lowered refused (cellOf "empty") false fresh).
  right; right. reflexivity.
Defined.

Lemma preExecute_known_file_is_noop_witness :
  HoverProvider.preExecute "empty" lowered refused (cellOf "/src/SCRIPT.py")
    false seen
  = (HoverProvider.Normal tt, seen).
Proof.
  apply (preExecute_known_file_is_noop "empty" lowered refused
           (cellOf "/src/SCRIPT.py") seen "/src/script.py").
  - done.
  - done.
  - reflexivity.
  - apply elem_of_singleton. reflexivity.
Defined.

Lemma preExecute_new_file_witness :
  HoverProvider.preExecute "empty" lowered accepted (cellOf "/src/Script.py")
    false fresh
  = (HoverProvider.Normal tt,
     {| HoverProvider.runFiles := {[ "/src/script.py" ]} ∪ ∅;
        HoverProvider.hoverProviderRegistration := Some 5;
        HoverProvider.stopWatch := 0;
        HoverProvider.traced := [];
        HoverProvider.telemetry := [] |}).
Proof.
  apply (proj1 (proj2 (preExecute_new_file "empty" lowered accepted
                         (cellOf "/src/Script.py") fresh "/src/script.py"
                         ltac:(done) ltac:(done) eq_refl
                         ltac:(apply not_elem_of_empty)))
           5 eq_refl eq_refl).
Defined.

Lemma preExecute_after_kernel_restart_witness :
  HoverProvider.preExecute "empty" lowered refused (cellOf "/src/Script.py")
    false (HoverProvider.onKernelRestarted seen).2
  = (HoverProvider.Normal tt,
     {| HoverProvider.runFiles := {[ "/src/script.py" ]} ∪ ∅;
        HoverProvider.hoverProviderRegistration := Some 5;
        HoverProvider.stopWatch := 0;
        HoverProvider.traced := [];
        HoverProvider.telemetry := [] |}).
Proof.
  apply (preExecute_after_kernel_restart "empty" lowered refused
           (cellOf "/src/Script.py") seen "/src/script.py" 5);
    done.
Defined.

(** [/src/script.py] owns the first window, so the window it only
    submitted to is not consulted; [/src/other.py] owns no window with a
    notebook and gets the one it submitted to. *)
Example getMatchingNotebooks_windows :
  HoverProvider.getMatchingNotebooks samePath id windows "/src/script.py" = [7]
  ∧ HoverProvider.getMatchingNotebooks samePath id windows "/src/other.py" = [8]
  ∧ HoverProvider.getMatchingNotebooks samePath id windows "/src/none.py" = [].
Proof. split_and!; vm_compute; reflexivity. Qed.

Example getVariableHover_callback_text :
  HoverProvider.getVariableHover_callback (Exc := string) samePath id
    (λ (_ : string) (position : nat), if position =? 0 then None else Some "df")
    (λ (_ : string) (range : string), range)
    id (λ requests, HoverProvider.Normal (reply requests))
    windows "/src/script.py" 3
  = HoverProvider.Normal
      (Some {| HoverProvider.contents :=
                 [ "```" +:+ HoverProvider.newline
                   +:+ "type: DataFrame" +:+ HoverProvider.newline
                   +:+ "shape: (3, 2)" +:+ HoverProvider.newline
                   +:+ "```" ] |}).
Proof. vm_compute. reflexivity. Qed.

(** A kernel that fails makes the lookup fail for a document with a
    notebook, and is not even asked for a document without one. *)
Example getVariableHover_callback_rejects :
  HoverProvider.getVariableHover_callback (Value := string) samePath id
    (λ (_ : string) (position : nat), Some "df")
    (λ (_ : string) (range : string), range)
    id (λ _, HoverProvider.Throw "kernel died")
    windows "/src/script.py" 3
  = HoverProvider.Throw "kernel died"
  ∧ HoverProvider.getVariableHover_callback (Value := string) samePath id
      (λ (_ : string) (position : nat), Some "df")
      (λ (_ : string) (range : string), range)
      id (λ _, HoverProvider.Throw "kernel died")
      windows "/src/none.py" 3
    = HoverProvider.Normal None.
Proof. split; vm_compute; reflexivity. Qed.

(** [/src/other.py] owns no window with a notebook but submitted to the
    second one; the kernel fails, and so does the lookup. *)
Lemma getVariableHover_callback_outcome_witness :
  HoverProvider.getVariableHover_callback (Value := string) samePath id
    (λ (_ : string) (position : nat), Some "df")
    (λ (_ : string) (range : string), range)
    id (λ _, HoverProvider.Throw "kernel died")
    windows "/src/other.py" 3
  = HoverProvider.Throw "kernel died".
Proof.
  refine (proj2 (proj2 (getVariableHover_callback_outcome (Value := string)
                          samePath id
                          (λ (_ : string) (position : nat), Some "df")
                          (λ (_ : string) (range : string), range)
                          id (λ _, HoverProvider.Throw "kernel died")
                          windows "/src/other.py" 3)
                   "df" 8 eq_refl _ _)).
  - done.
  - right. eexists. split_and!.
    + eapply (list_elem_of_lookup_2 _ 1). reflexivity.
    + reflexivity.
    + exists "/src/other.py". split.
      * eapply (list_elem_of_lookup_2 _ 1). reflexivity.
      * vm_compute. exact I.
Defined.

End Concrete.
